(** * rlattack.logger: buffering, sink fan-out and the configure/reset lifecycle

    A shallow embedding of [src/rlattack/logger.py].  Python objects that the
    module mutates in place (the key/value buffer of a Logger, the sinks, the
    files behind them, [Logger.CURRENT]) are modelled by explicit state
    passing; an exception is an outcome that still carries the state reached
    when it was raised.

    Strings are sequences of characters with codes below 256.  Failures of
    the operating system (a directory that cannot be created, a full disk)
    are outside the model: [os.makedirs], [open], [write] and [flush] succeed. *)

From Stdlib Require Import ZArith String Ascii.
From stdpp Require Import base tactics option list strings sorting pretty numbers.

Local Open Scope string_scope.
Local Open Scope Z_scope.

(** ** Exceptions and outcomes *)

Inductive exn : Type :=
| NotImplementedError
| ValueError (msg : string)
| TypeError (msg : string)
| OverflowError (msg : string)
| AttributeError (msg : string)
| AssertionError (msg : string).

Inductive outcome (A : Type) : Type :=
| Return (a : A)
| Raise (e : exn).
Arguments Return {A} a.
Arguments Raise {A} e.

Definition returned {A} (r : outcome A) : bool :=
  match r with Return _ => true | Raise _ => false end.

(** A computation over a state [St]: the state is returned on both paths,
    since whatever was mutated before a [raise] stays mutated. *)
Definition M (St A : Type) : Type := St → outcome A * St.

Definition ret {St A} (a : A) : M St A := λ s, (Return a, s).
Definition throw {St A} (e : exn) : M St A := λ s, (Raise e, s).
Definition bind {St A B} (m : M St A) (k : A → M St B) : M St B :=
  λ s, match m s with
       | (Return a, s') => k a s'
       | (Raise e, s') => (Raise e, s')
       end.
Definition modify {St} (f : St → St) : M St unit := λ s, (Return tt, f s).
Definition gets {St A} (f : St → A) : M St A := λ s, (Return (f s), s).
Definition lift_outcome {St A} (r : outcome A) : M St A := λ s, (r, s).

Declare Scope py_scope.
Delimit Scope py_scope with py.
Notation "'do' x <- m ; k" := (bind m (λ x, k))
  (at level 10, x name, m at level 100, k at level 200) : py_scope.
Notation "m ;;; k" := (bind m (λ _, k))
  (at level 100, k at level 200, right associativity) : py_scope.
Local Open Scope py_scope.

(** [for x in xs: body x] *)
Fixpoint for_each {St A} (body : A → M St unit) (xs : list A) : M St unit :=
  match xs with
  | [] => ret tt
  | x :: xs' => body x ;;; for_each body xs'
  end.

(** [[f x for x in xs]] *)
Fixpoint comprehension {St A B} (f : A → M St B) (xs : list A) : M St (list B) :=
  match xs with
  | [] => ret []
  | x :: xs' => do y <- f x; do ys <- comprehension f xs'; ret (y :: ys)
  end.

(** ** Text helpers *)

Definition nl : string := String "010" EmptyString.
Definition dquote : string := String "034" EmptyString.
Definition backslash : string := String "092" EmptyString.

(** [s * n] *)
Fixpoint str_mul (s : string) (n : nat) : string :=
  match n with
  | O => ""
  | S n' => s ++ str_mul s n'
  end.

(** [max(xs)] on a sequence of lengths *)
Definition py_max (xs : list nat) : outcome nat :=
  match xs with
  | [] => Raise (ValueError "max() arg is an empty sequence")
  | x :: xs' => Return (foldl Nat.max x xs')
  end.

(** [os.path.join(a, b)] for a relative [b] (posixpath) *)
Definition osp_join (a b : string) : string :=
  match String.length a with
  | O => b
  | S n => if (substring n 1 a =? "/")%string then a ++ b else a ++ "/" ++ b
  end.

(** ** Dictionaries

    A Python [dict] keeps its entries in insertion order, and [json.dumps]
    and [items()] follow that order, so a dictionary is an association list.
    [d[k] = v] overwrites in place when [k] is present and appends otherwise. *)

Section dict.
Context {V : Type}.

Definition dict_keys (d : list (string * V)) : list string := d.*1.
Definition dict_values (d : list (string * V)) : list V := d.*2.

Fixpoint dict_get (k : string) (d : list (string * V)) : option V :=
  match d with
  | [] => None
  | (k', v) :: d' => if decide (k = k') then Some v else dict_get k d'
  end.

Fixpoint dict_set (k : string) (v : V) (d : list (string * V)) : list (string * V) :=
  match d with
  | [] => [(k, v)]
  | (k', v') :: d' =>
      if decide (k = k') then (k', v) :: d' else (k', v') :: dict_set k v d'
  end.

(** the representation invariant of a dictionary: keys are unique *)
Definition dict_wf (d : list (string * V)) : Prop := NoDup (dict_keys d).

Definition item_le (x y : string * V) : Prop := Is_true (String.leb x.1 y.1).

#[global] Instance item_le_dec : RelDecision item_le.
Proof. intros x y. unfold item_le. apply _. Defined.

(** [sorted(d.items())]: keys of a dictionary are distinct, so the order of
    the tuples is the order of their keys *)
Definition sorted_items (d : list (string * V)) : list (string * V) :=
  merge_sort item_le d.
End dict.

Abbreviation dict V := (list (string * V)).

(** ** What the module takes from its libraries

    Floating point, numpy, the clock and the working directory are not part
    of the repository; the module only calls into them.  They are gathered
    in one interface, and everything below holds for every implementation
    of it. *)

Class Extern : Type := {
  (** Python [float] *)
  pyfloat : Type;
  (** a value with a [dtype] attribute (numpy scalar or array) *)
  ndarray : Type;
  (** ['%-8.3g' % (val,)] *)
  format_g3 : pyfloat → string;
  (** [float.__repr__], as [json.dumps] prints a float *)
  float_repr : pyfloat → string;
  (** [float(n)] for an [int] *)
  float_of_int : Z → outcome pyfloat;
  (** [float(s)] for a [str] *)
  float_of_str : string → outcome pyfloat;
  (** [float(v)] for a value with a dtype *)
  np_float : ndarray → outcome pyfloat;
  (** [float(v.tolist())] *)
  np_tolist_float : ndarray → outcome pyfloat;
  (** the text [HumanOutputFormat.writekvs] derives from a value with a
      dtype ([np.float64] is a [float], the others go through [str]) *)
  np_valstr : ndarray → string;
  (** [time.time()] at the n-th reading of the clock *)
  time_time : nat → pyfloat;
  (** [datetime.datetime.now().strftime("openai-%Y-%m-%d-%H-%M-%S-%f")] *)
  strftime_now : nat → string;
  (** [tempfile.gettempdir()] *)
  gettempdir : string;
  (** [os.path.abspath] *)
  osp_abspath : string → string
}.

Section logger.
Context `{Extern}.

(** ** Values, files and event writers *)

Inductive pyval : Type :=
| VInt (z : Z)
| VFloat (f : pyfloat)
| VStr (s : string)
| VNp (a : ndarray).

(** [hasattr(v, 'dtype')] *)
Definition has_dtype (v : pyval) : bool :=
  match v with VNp _ => true | _ => false end.

(** [float(v)] *)
Definition py_float (v : pyval) : outcome pyfloat :=
  match v with
  | VInt z => float_of_int z
  | VFloat f => Return f
  | VStr s => float_of_str s
  | VNp a => np_float a
  end.

(** a text stream: what was written and not yet flushed, and what was flushed *)
Record File : Type := {
  f_name : string;
  f_pending : string;
  f_flushed : string
}.

Definition File_write (text : string) (f : File) : File :=
  {| f_name := f_name f; f_pending := f_pending f ++ text; f_flushed := f_flushed f |}.
Definition File_flush (f : File) : File :=
  {| f_name := f_name f; f_pending := ""; f_flushed := f_flushed f ++ f_pending f |}.

Record Event : Type := {
  wall_time : pyfloat;
  summary : list (string * pyfloat);
  ev_step : Z
}.

Record EventsWriter : Type := {
  ew_path : string;
  ew_pending : list Event;
  ew_flushed : list Event;
  ew_closed : bool
}.

Definition WriteEvent (e : Event) (w : EventsWriter) : EventsWriter :=
  {| ew_path := ew_path w; ew_pending := ew_pending w ++ [e];
     ew_flushed := ew_flushed w; ew_closed := ew_closed w |}.
Definition Flush (w : EventsWriter) : EventsWriter :=
  {| ew_path := ew_path w; ew_pending := [];
     ew_flushed := ew_flushed w ++ ew_pending w; ew_closed := ew_closed w |}.
Definition Close (w : EventsWriter) : EventsWriter :=
  {| ew_path := ew_path w; ew_pending := [];
     ew_flushed := ew_flushed w ++ ew_pending w; ew_closed := true |}.

(** ** Sinks

    A file or an events writer is an object in the store of [Sys] and a sink
    holds its index: [sys.stdout] is shared by the default logger's sink and
    by every sink made for the format ['stdout']. *)

Inductive OutputFormat : Type :=
| BaseOutputFormat
| HumanOutputFormat (file : nat)
| JSONOutputFormat (file : nat)
| TensorBoardOutputFormat (dir : string) (step : Z) (writer : option nat).

(** the state outside the loggers; [kv_calls] is a history variable that
    records every [writekvs] call: the sink it was made on and the contents
    of the mapping it was given, at the time of the call *)
Record Sys : Type := {
  files : list File;
  writers : list EventsWriter;
  made_dirs : list string;
  clock : nat;
  OPENAI_LOGDIR : option string;
  kv_calls : list (OutputFormat * dict pyval)
}.

Definition sys_stdout : nat := 0%nat.

Definition set_files (f : list File → list File) (s : Sys) : Sys :=
  {| files := f (files s); writers := writers s; made_dirs := made_dirs s;
     clock := clock s; OPENAI_LOGDIR := OPENAI_LOGDIR s; kv_calls := kv_calls s |}.
Definition set_writers (f : list EventsWriter → list EventsWriter) (s : Sys) : Sys :=
  {| files := files s; writers := f (writers s); made_dirs := made_dirs s;
     clock := clock s; OPENAI_LOGDIR := OPENAI_LOGDIR s; kv_calls := kv_calls s |}.
Definition tick (s : Sys) : Sys :=
  {| files := files s; writers := writers s; made_dirs := made_dirs s;
     clock := S (clock s); OPENAI_LOGDIR := OPENAI_LOGDIR s; kv_calls := kv_calls s |}.
Definition record_call (fmt : OutputFormat) (kvs : dict pyval) (s : Sys) : Sys :=
  {| files := files s; writers := writers s; made_dirs := made_dirs s;
     clock := clock s; OPENAI_LOGDIR := OPENAI_LOGDIR s;
     kv_calls := kv_calls s ++ [(fmt, kvs)] |}.

Definition file_write (file : nat) (text : string) : M Sys unit :=
  modify (set_files (alter (File_write text) file)).
Definition file_flush (file : nat) : M Sys unit :=
  modify (set_files (alter File_flush file)).

(** [os.makedirs(d, exist_ok=True)] *)
Definition makedirs (d : string) : M Sys unit :=
  modify (λ s,
    {| files := files s; writers := writers s; made_dirs := made_dirs s ++ [d];
       clock := clock s; OPENAI_LOGDIR := OPENAI_LOGDIR s; kv_calls := kv_calls s |}).

(** [open(path, 'wt')]: a new stream *)
Definition open_wt (path : string) : M Sys nat :=
  λ s, (Return (length (files s)),
        set_files (λ fs, (fs ++ [{| f_name := path; f_pending := ""; f_flushed := "" |}])%list) s).

(** [pywrap_tensorflow.EventsWriter(path)] *)
Definition new_EventsWriter (path : string) : M Sys nat :=
  λ s, (Return (length (writers s)),
        set_writers (λ ws, (ws ++ [{| ew_path := path; ew_pending := [];
                                      ew_flushed := []; ew_closed := false |}])%list) s).

(** *** HumanOutputFormat *)

(** [_truncate] *)
Definition _truncate (s : string) : string :=
  if (23 <? String.length s)%nat then substring 0 20 s ++ "..." else s.

Definition valstr (val : pyval) : string :=
  match val with
  | VFloat f => format_g3 f
  | VInt z => pretty z
  | VStr s => s
  | VNp a => np_valstr a
  end.

Definition key2str_of (kvs : dict pyval) : dict string :=
  foldl (λ key2str '(key, val), dict_set (_truncate key) (_truncate (valstr val)) key2str)
        [] (sorted_items kvs).

Definition table_row (keywidth valwidth : nat) (kv : string * string) : string :=
  "| " ++ kv.1 ++ str_mul " " (keywidth - String.length kv.1) ++ " | "
       ++ kv.2 ++ str_mul " " (valwidth - String.length kv.2) ++ " |".

Definition Human_writekvs (file : nat) (kvs : dict pyval) : M Sys unit :=
  let key2str := key2str_of kvs in
  do keywidth <- lift_outcome (py_max (String.length <$> dict_keys key2str));
  do valwidth <- lift_outcome (py_max (String.length <$> dict_values key2str));
  let dashes := str_mul "-" (keywidth + valwidth + 7) in
  let lines := ([dashes] ++ (table_row keywidth valwidth <$> sorted_items key2str)
                         ++ [dashes])%list in
  file_write file (String.concat nl lines ++ nl) ;;;
  file_flush file.

Definition Human_writeseq (file : nat) (args : list string) : M Sys unit :=
  for_each (file_write file) args ;;;
  file_write file nl ;;;
  file_flush file.

(** *** JSONOutputFormat *)

Definition hex_digit (n : nat) : string :=
  substring n 1 "0123456789abcdef".

(** one character under [json.dumps] with [ensure_ascii] *)
Definition json_escape_char (c : ascii) : string :=
  let n := nat_of_ascii c in
  if (n =? 34)%nat then backslash ++ dquote
  else if (n =? 92)%nat then backslash ++ backslash
  else if (n =? 10)%nat then backslash ++ "n"
  else if (n =? 13)%nat then backslash ++ "r"
  else if (n =? 9)%nat then backslash ++ "t"
  else if (n =? 12)%nat then backslash ++ "f"
  else if (n =? 8)%nat then backslash ++ "b"
  else if ((32 <=? n) && (n <=? 126))%nat then String c ""
  else backslash ++ "u00" ++ hex_digit (n / 16) ++ hex_digit (n mod 16).

Fixpoint json_escape (s : string) : string :=
  match s with
  | EmptyString => ""
  | String c s' => json_escape_char c ++ json_escape s'
  end.

Definition json_str (s : string) : string := dquote ++ json_escape s ++ dquote.

Definition json_value (v : pyval) : outcome string :=
  match v with
  | VInt z => Return (pretty z)
  | VFloat f => Return (float_repr f)
  | VStr s => Return (json_str s)
  | VNp _ => Raise (TypeError "Object of type ndarray is not JSON serializable")
  end.

Fixpoint json_members (d : dict pyval) : outcome (list string) :=
  match d with
  | [] => Return []
  | (k, v) :: d' =>
      match json_value v with
      | Raise e => Raise e
      | Return x =>
          match json_members d' with
          | Raise e => Raise e
          | Return xs => Return ((json_str k ++ ": " ++ x) :: xs)
          end
      end
  end.

(** [json.dumps(d)]: the members in the order of the dictionary *)
Definition json_dumps (d : dict pyval) : outcome string :=
  match json_members d with
  | Raise e => Raise e
  | Return xs => Return ("{" ++ String.concat ", " xs ++ "}")
  end.

(** run a computation on one component of a pair of states *)
Definition zoom_fst {A B X} (m : M A X) : M (A * B) X :=
  λ st, let '(r, a') := m st.1 in (r, (a', st.2)).
Definition zoom_snd {A B X} (m : M B X) : M (A * B) X :=
  λ st, let '(r, b') := m st.2 in (r, (st.1, b')).

(** the body of the loop of [JSONOutputFormat.writekvs] *)
Definition JSON_convert (item : string * pyval) : M (dict pyval) unit :=
  match item.2 with
  | VNp a =>
      do v <- lift_outcome (np_tolist_float a);
      modify (dict_set item.1 (VFloat v))
  | _ => ret tt
  end.

(** the state is the mapping the caller passed, which the loop assigns to,
    and the file store *)
Definition JSON_writekvs (file : nat) : M (dict pyval * Sys) unit :=
  do items <- gets (λ st, sorted_items st.1);
  zoom_fst (for_each JSON_convert items) ;;;
  do kvs <- gets fst;
  do text <- lift_outcome (json_dumps kvs);
  zoom_snd (file_write file (text ++ nl)) ;;;
  zoom_snd (file_flush file).

(** *** TensorBoardOutputFormat *)

Definition summary_val (kv : string * pyval) : M Sys (string * pyfloat) :=
  do x <- lift_outcome (py_float kv.2); ret (kv.1, x).

Definition read_clock : M Sys pyfloat :=
  λ s, (Return (time_time (clock s)), tick s).

(** returns [self] as the call leaves it: [self.step += 1] is the last
    statement, so [self] only changes when the call returns *)
Definition TensorBoard_writekvs (dir : string) (step : Z) (writer : option nat)
    (kvs : dict pyval) : M Sys OutputFormat :=
  do value <- comprehension summary_val kvs;
  do now <- read_clock;
  let event := {| wall_time := now; summary := value; ev_step := step |} in
  match writer with
  | None => throw (AttributeError "'NoneType' object has no attribute 'WriteEvent'")
  | Some wr =>
      modify (set_writers (alter (WriteEvent event) wr)) ;;;
      modify (set_writers (alter Flush wr)) ;;;
      ret (TensorBoardOutputFormat dir (step + 1) writer)
  end.

Definition TensorBoard_init (dir : string) : M Sys OutputFormat :=
  makedirs dir ;;;
  let path := osp_join (osp_abspath dir) "events" in
  do wr <- new_EventsWriter path;
  ret (TensorBoardOutputFormat dir 1 (Some wr)).

(** *** The three operations of a sink *)

(** [fmt.writekvs(kvs)]: the sink, the mapping it is given and the store, as
    the call finds them and as it leaves them *)
Definition writekvs : M (OutputFormat * dict pyval * Sys) unit :=
  λ '(self, kvs, s0),
    let s := record_call self kvs s0 in
    match self with
    | BaseOutputFormat => (Raise NotImplementedError, (self, kvs, s))
    | HumanOutputFormat file =>
        let '(r, s') := Human_writekvs file kvs s in (r, (self, kvs, s'))
    | JSONOutputFormat file =>
        let '(r, (kvs', s')) := JSON_writekvs file (kvs, s) in (r, (self, kvs', s'))
    | TensorBoardOutputFormat dir step writer =>
        match TensorBoard_writekvs dir step writer kvs s with
        | (Return self', s') => (Return tt, (self', kvs, s'))
        | (Raise e, s') => (Raise e, (self, kvs, s'))
        end
    end.

(** [fmt.writeseq(args)]; only [HumanOutputFormat] overrides the base [pass] *)
Definition writeseq (self : OutputFormat) (args : list string) : M Sys unit :=
  match self with
  | HumanOutputFormat file => Human_writeseq file args
  | _ => ret tt
  end.

(** [fmt.close()], giving [self] as the call leaves it *)
Definition close (self : OutputFormat) : M Sys OutputFormat :=
  match self with
  | TensorBoardOutputFormat dir step (Some wr) =>
      modify (set_writers (alter Close wr)) ;;;
      ret (TensorBoardOutputFormat dir step None)
  | _ => ret self
  end.

(** ** make_output_format *)

Definition make_output_format (format ev_dir : string) : M Sys OutputFormat :=
  makedirs ev_dir ;;;
  if decide (format = "stdout") then ret (HumanOutputFormat sys_stdout)
  else if decide (format = "log") then
    do log_file <- open_wt (osp_join ev_dir "log.txt");
    ret (HumanOutputFormat log_file)
  else if decide (format = "json") then
    do json_file <- open_wt (osp_join ev_dir "progress.json");
    ret (JSONOutputFormat json_file)
  else if decide (format = "tensorboard") then
    TensorBoard_init (osp_join ev_dir "tb")
  else throw (ValueError ("Unknown format specified: " ++ format)).

(** ** Logger *)

Definition DEBUG : Z := 10.
Definition INFO : Z := 20.
Definition WARN : Z := 30.
Definition ERROR : Z := 40.
Definition DISABLED : Z := 50.

Definition LOG_OUTPUT_FORMATS : list string := ["stdout"; "log"; "json"].

Record Logger : Type := {
  name2val : dict pyval;
  level : Z;
  dir : option string;
  output_formats : list OutputFormat
}.

(** [Logger.__init__] *)
Definition Logger_init (dir : option string) (output_formats : list OutputFormat) : Logger :=
  {| name2val := []; level := INFO; dir := dir; output_formats := output_formats |}.

Definition set_name2val (d : dict pyval) (self : Logger) : Logger :=
  {| name2val := d; level := level self; dir := dir self;
     output_formats := output_formats self |}.
Definition set_output_formats (fmts : list OutputFormat) (self : Logger) : Logger :=
  {| name2val := name2val self; level := level self; dir := dir self;
     output_formats := fmts |}.

(** a method of a Logger runs on the Logger object and the store *)
Definition Logger_logkv (key : string) (val : pyval) : M (Logger * Sys) unit :=
  modify (λ st, (set_name2val (dict_set key val (name2val st.1)) st.1, st.2)).

(** [for fmt in self.output_formats: fmt.writekvs(self.name2val)]: the
    sinks, the buffer and the store as the loop leaves them.  When a call
    raises the loop is left at once, with whatever was mutated so far. *)
Fixpoint dump_loop (fmts : list OutputFormat) (kvs : dict pyval) (s : Sys)
    : outcome unit * (list OutputFormat * dict pyval * Sys) :=
  match fmts with
  | [] => (Return tt, ([], kvs, s))
  | fmt :: rest =>
      match writekvs (fmt, kvs, s) with
      | (Return _, (fmt', kvs', s')) =>
          let '(r, (rest', kvs'', s'')) := dump_loop rest kvs' s' in
          (r, (fmt' :: rest', kvs'', s''))
      | (Raise e, (fmt', kvs', s')) => (Raise e, (fmt' :: rest, kvs', s'))
      end
  end.

Definition Logger_dumpkvs : M (Logger * Sys) unit :=
  λ '(self, s),
    if decide (level self = DISABLED) then (Return tt, (self, s))
    else
      match dump_loop (output_formats self) (name2val self) s with
      | (Return _, (fmts', kvs', s')) =>
          (Return tt, (set_name2val [] (set_output_formats fmts' self), s'))
      | (Raise e, (fmts', kvs', s')) =>
          (Raise e, (set_name2val kvs' (set_output_formats fmts' self), s'))
      end.

Definition _do_log (args : list string) : M (Logger * Sys) unit :=
  do fmts <- gets (λ st, output_formats st.1);
  zoom_snd (for_each (λ fmt, writeseq fmt args) fmts).

Definition Logger_log (args : list string) (lvl : Z) : M (Logger * Sys) unit :=
  do threshold <- gets (λ st, level st.1);
  if decide (threshold ≤ lvl) then _do_log args else ret tt.

Definition Logger_set_level (lvl : Z) : M (Logger * Sys) unit :=
  modify (λ st,
    ({| name2val := name2val st.1; level := lvl; dir := dir st.1;
        output_formats := output_formats st.1 |}, st.2)).

Definition Logger_get_dir : M (Logger * Sys) (option string) :=
  gets (λ st, dir st.1).

Definition Logger_close : M (Logger * Sys) unit :=
  do fmts <- gets (λ st, output_formats st.1);
  do fmts' <- zoom_snd (comprehension close fmts);
  modify (λ st, (set_output_formats fmts' st.1, st.2)).

(** ** The process-wide context

    [Logger.DEFAULT] is one object, made when the module is imported and
    never replaced.  [Logger.CURRENT] is either that very object or another
    one: every [Logger(...)] expression makes a new object, which is never
    identical to the default one.  [CURRENT is DEFAULT] is the test of the
    first case, and a mutation through [CURRENT] in that case is a mutation
    of [DEFAULT]. *)

Inductive Current : Type :=
| IsDefault
| Installed (L : Logger).

Record World : Type := {
  sys : Sys;
  Logger_DEFAULT : Logger;
  Logger_CURRENT : Current
}.

Definition current_logger (w : World) : Logger :=
  match Logger_CURRENT w with
  | IsDefault => Logger_DEFAULT w
  | Installed L => L
  end.

Definition current_is_default (w : World) : bool :=
  match Logger_CURRENT w with IsDefault => true | Installed _ => false end.

Definition put_current (L : Logger) (s : Sys) (w : World) : World :=
  match Logger_CURRENT w with
  | IsDefault => {| sys := s; Logger_DEFAULT := L; Logger_CURRENT := IsDefault |}
  | Installed _ =>
      {| sys := s; Logger_DEFAULT := Logger_DEFAULT w; Logger_CURRENT := Installed L |}
  end.

(** [Logger.CURRENT.method(...)] *)
Definition on_current {A} (m : M (Logger * Sys) A) : M World A :=
  λ w, let '(r, (L, s)) := m (current_logger w, sys w) in (r, put_current L s w).

Definition on_sys {A} (m : M Sys A) : M World A :=
  λ w, let '(r, s) := m (sys w) in
       (r, {| sys := s; Logger_DEFAULT := Logger_DEFAULT w;
              Logger_CURRENT := Logger_CURRENT w |}).

Definition set_CURRENT (c : Current) : M World unit :=
  modify (λ w, {| sys := sys w; Logger_DEFAULT := Logger_DEFAULT w;
                  Logger_CURRENT := c |}).

(** ** The free functions *)

Definition logkv (key : string) (val : pyval) : M World unit :=
  on_current (Logger_logkv key val).

Definition logkvs (d : dict pyval) : M World unit :=
  for_each (λ kv, logkv kv.1 kv.2) d.

Definition dumpkvs : M World unit := on_current Logger_dumpkvs.

(** [getkvs()] returns the buffer object itself; what is read from it is its
    contents at the time of the call *)
Definition getkvs : M World (dict pyval) :=
  gets (λ w, name2val (current_logger w)).

Definition log (args : list string) (lvl : Z) : M World unit :=
  on_current (Logger_log args lvl).


Definition get_dir : M World (option string) := on_current Logger_get_dir.

Definition record_tabular := logkv.
Definition dump_tabular := dumpkvs.

(** the directory [configure] falls back to *)
Definition fresh_tmp_dir : M Sys string :=
  λ s, (Return (osp_join gettempdir (strftime_now (clock s))), tick s).

Definition configure (dir : option string) (format_strs : option (list string))
    : M World unit :=
  do is_default <- gets current_is_default;
  if negb is_default then
    throw (AssertionError
      "Only call logger.configure() when it's in the default state. Try calling logger.reset() first.")
  else
    do dir <- match dir with
              | Some d => ret (Some d)
              | None => gets (λ w, OPENAI_LOGDIR (sys w))
              end;
    do dir <- match dir with
              | Some d => ret d
              | None => on_sys fresh_tmp_dir
              end;
    let format_strs := default LOG_OUTPUT_FORMATS format_strs in
    do output_formats <- on_sys (comprehension (λ f, make_output_format f dir) format_strs);
    set_CURRENT (Installed (Logger_init (Some dir) output_formats)) ;;;
    log ["Logging to " ++ dir] INFO.

Definition reset : M World unit :=
  set_CURRENT IsDefault ;;;
  log ["Reset logger"] INFO.

(** the state right after [Logger.DEFAULT = Logger.CURRENT = Logger(...)] *)
Definition fresh_world (env : option string) : World :=
  {| sys := {| files := [{| f_name := "<stdout>"; f_pending := ""; f_flushed := "" |}];
               writers := []; made_dirs := []; clock := 0%nat;
               OPENAI_LOGDIR := env; kv_calls := [] |};
     Logger_DEFAULT := Logger_init None [HumanOutputFormat sys_stdout];
     Logger_CURRENT := IsDefault |}.

(** importing the module: [configure] runs when the variable is set to a
    non-empty string *)
Definition import_logger (env : option string) : outcome unit * World :=
  match env with
  | Some (String c d) => configure (Some (String c d)) None (fresh_world env)
  | _ => (Return tt, fresh_world env)
  end.

End logger.

(** ** A small implementation of the library interface

    Enough of Python and numpy to run the model: floats that hold whole
    numbers below a thousand in absolute value, and numpy values that are an
    integer scalar or a one-dimensional integer array. *)

Inductive small_np : Type :=
| np_int64 (z : Z)
| np_array (items : list Z).

(** [s.ljust(n)] *)
Definition ljust (n : nat) (s : string) : string :=
  s ++ str_mul " " (n - String.length s).

#[global] Instance small_extern : Extern := {|
  pyfloat := Z;
  ndarray := small_np;
  format_g3 f := ljust 8 (pretty f);
  float_repr f := pretty f ++ ".0";
  float_of_int z := Return z;
  float_of_str s := Raise (ValueError ("could not convert string to float: '" ++ s ++ "'"));
  np_float a :=
    match a with
    | np_int64 z => Return z
    | np_array [z] => Return z
    | np_array _ => Raise (TypeError "only size-1 arrays can be converted to Python scalars")
    end;
  np_tolist_float a :=
    match a with
    | np_int64 z => Return z
    | np_array _ =>
        Raise (TypeError "float() argument must be a string or a number, not 'list'")
    end;
  np_valstr a :=
    match a with
    | np_int64 z => pretty z
    | np_array l => "[" ++ String.concat " " (pretty <$> l) ++ "]"
    end;
  time_time n := Z.of_nat n;
  strftime_now n := "openai-" ++ pretty n;
  gettempdir := "/tmp";
  osp_abspath p := p
|}.

(** ** Vocabulary of the statements *)

Section vocabulary.
Context `{Extern}.

(** the value of the last [logkv key _] of a sequence of calls *)
Definition last_write (key : string) (calls : list (string * pyval)) : option pyval :=
  snd <$> list.last (filter (λ kv, kv.1 = key) calls).

(** [v] has no dtype, or [float(v.tolist())] returns *)
Definition convertible (v : pyval) : bool :=
  match v with
  | VNp a => returned (np_tolist_float a)
  | _ => true
  end.

(** a value as [JSONOutputFormat.writekvs] leaves it *)
Definition coerce (v : pyval) : pyval :=
  match v with
  | VNp a =>
      match np_tolist_float a with
      | Return x => VFloat x
      | Raise _ => v
      end
  | _ => v
  end.

Definition json_coerced (kvs : dict pyval) : dict pyval :=
  (λ kv, (kv.1, coerce kv.2)) <$> kvs.

(** the call [fmt.writekvs(kvs)] returns *)
Definition accepts (fmt : OutputFormat) (kvs : dict pyval) : bool :=
  match fmt with
  | BaseOutputFormat => false
  | HumanOutputFormat _ => match kvs with [] => false | _ => true end
  | JSONOutputFormat _ => forallb (λ kv, convertible kv.2) kvs
  | TensorBoardOutputFormat _ _ writer =>
      forallb (λ kv, returned (py_float kv.2)) kvs
      && match writer with Some _ => true | None => false end
  end.

(** the mapping after a call [fmt.writekvs(kvs)] that returned *)
Definition left_by (fmt : OutputFormat) (kvs : dict pyval) : dict pyval :=
  match fmt with
  | JSONOutputFormat _ => json_coerced kvs
  | _ => kvs
  end.

(** one [writekvs] call per sink, in the order of the list, each on the
    buffer as the calls before it left it *)
Fixpoint dump_calls (fmts : list OutputFormat) (kvs : dict pyval)
    : list (OutputFormat * dict pyval) :=
  match fmts with
  | [] => []
  | fmt :: rest => (fmt, kvs) :: dump_calls rest (left_by fmt kvs)
  end.

(** every call of the fan-out returns *)
Fixpoint dump_ok (fmts : list OutputFormat) (kvs : dict pyval) : bool :=
  match fmts with
  | [] => true
  | fmt :: rest => accepts fmt kvs && dump_ok rest (left_by fmt kvs)
  end.

(** how many sinks the fan-out reaches: all of them, or those up to and
    including the first whose call raises *)
Fixpoint reached (fmts : list OutputFormat) (kvs : dict pyval) : nat :=
  match fmts with
  | [] => O
  | fmt :: rest => S (if accepts fmt kvs then reached rest (left_by fmt kvs) else O)
  end.

Definition known_format (format : string) : bool :=
  bool_decide (format ∈ ["stdout"; "log"; "json"; "tensorboard"]).

Definition assertion_message : string :=
  "Only call logger.configure() when it's in the default state. Try calling logger.reset() first.".

(** the directory [configure] resolves and the store after resolving it *)
Definition resolved_dir (dir : option string) (s : Sys) : string * Sys :=
  match dir with
  | Some d => (d, s)
  | None =>
      match OPENAI_LOGDIR s with
      | Some d => (d, s)
      | None => (osp_join gettempdir (strftime_now (clock s)), tick s)
      end
  end.

(** [s'] differs from [s] in the contents of its text streams at most *)
Definition only_files_changed (s s' : Sys) : Prop :=
  writers s' = writers s ∧ made_dirs s' = made_dirs s ∧ clock s' = clock s ∧
  OPENAI_LOGDIR s' = OPENAI_LOGDIR s ∧ kv_calls s' = kv_calls s ∧
  length (files s') = length (files s).

(** a stream after [write(text)] for each text of [args], [write('\n')] and
    [flush()] *)
Definition line_written (args : list string) (f : File) : File :=
  File_flush (File_write (String.concat "" args ++ nl) f).

(** a sink after [close()] *)
Definition closed_sink (fmt : OutputFormat) : OutputFormat :=
  match fmt with
  | TensorBoardOutputFormat dir step _ => TensorBoardOutputFormat dir step None
  | _ => fmt
  end.

(** The fan-out as the specification words it: [writekvs] is called on
    every sink in the order of the list, each call on the sink, the buffer
    and the store as the call before it left them, and a call that raises
    ends the fan-out.  [fan_out fmts kvs s calls r fmts' kvs' s'] relates the
    sinks, buffer and store before to the calls made (the sink and the
    buffer handed to it), the outcome, and the sinks, buffer and store
    after. *)
Inductive fan_out :
    list OutputFormat → dict pyval → Sys →
    list (OutputFormat * dict pyval) → outcome unit →
    list OutputFormat → dict pyval → Sys → Prop :=
| fan_out_done kvs s :
    fan_out [] kvs s [] (Return tt) [] kvs s
| fan_out_raise fmt rest kvs s e fmt' kvs' s' :
    writekvs (fmt, kvs, s) = (Raise e, (fmt', kvs', s')) →
    fan_out (fmt :: rest) kvs s [(fmt, kvs)] (Raise e) (fmt' :: rest) kvs' s'
| fan_out_next fmt rest kvs s fmt' kvs1 s1 calls r rest' kvs' s' :
    writekvs (fmt, kvs, s) = (Return tt, (fmt', kvs1, s1)) →
    fan_out rest kvs1 s1 calls r rest' kvs' s' →
    fan_out (fmt :: rest) kvs s ((fmt, kvs) :: calls) r (fmt' :: rest') kvs' s'.

Definition is_JSON (fmt : OutputFormat) : bool :=
  match fmt with JSONOutputFormat _ => true | _ => false end.

(** the buffer the i-th sink of [fmts] is handed when the buffer is [kvs]
    at the start of the fan-out *)
Definition handed (fmts : list OutputFormat) (kvs : dict pyval) (i : nat) : dict pyval :=
  if existsb is_JSON (take i fmts) then json_coerced kvs else kvs.

(** a Logger after a [dumpkvs] that returned, and after one that raised *)
Definition dumped (fmts' : list OutputFormat) (L : Logger) : Logger :=
  {| name2val := []; level := level L; dir := dir L; output_formats := fmts' |}.
Definition interrupted (fmts' : list OutputFormat) (kvs' : dict pyval) (L : Logger)
    : Logger :=
  {| name2val := kvs'; level := level L; dir := dir L; output_formats := fmts' |}.

End vocabulary.

(** ** Sample states

    States of the small implementation on which the statements below are
    run: the store after [configure('/tmp/x', ['json', 'stdout'])], and
    Loggers as that call installs them, with a few values logged. *)

Definition sample_sys : Sys :=
  {| files := [ {| f_name := "<stdout>"; f_pending := ""; f_flushed := "" |};
                {| f_name := "/tmp/x/progress.json"; f_pending := ""; f_flushed := "" |} ];
     writers := []; made_dirs := ["/tmp/x"; "/tmp/x"]; clock := 0%nat;
     OPENAI_LOGDIR := None; kv_calls := [] |}.

(** [np.int64(3)] *)
Definition int64_3 : pyval := VNp (np_int64 3).

(** [logkv('b', 2); logkv('a', np.int64(3))] *)
Definition sample_kvs : dict pyval := [("b", VInt 2); ("a", int64_3)].

Definition sample_logger : Logger :=
  {| name2val := sample_kvs; level := INFO; dir := Some "/tmp/x";
     output_formats := [JSONOutputFormat 1; HumanOutputFormat sys_stdout] |}.

(** [logkv('a', np.array([1, 2]))]: [tolist()] gives a list, which [float]
    refuses *)
Definition array_kvs : dict pyval := [("a", VNp (np_array [1; 2]))].

Definition array_logger : Logger :=
  {| name2val := array_kvs; level := INFO; dir := Some "/tmp/x";
     output_formats := [JSONOutputFormat 1; HumanOutputFormat sys_stdout] |}.

(** [logkv('b', 1); logkv('a', 2)] *)
Definition kvs_b_a : dict pyval := [("b", VInt 1); ("a", VInt 2)].

Definition record_b_a : string :=
  "{" ++ dquote ++ "b" ++ dquote ++ ": 1, " ++ dquote ++ "a" ++ dquote ++ ": 2}".
Definition record_a_b : string :=
  "{" ++ dquote ++ "a" ++ dquote ++ ": 2, " ++ dquote ++ "b" ++ dquote ++ ": 1}".

(** [logkv('a', 3); logkv('b', 2.0); logkv('a', 5)] on a Logger that
    [configure] has just installed *)
Definition sample_calls : list (string * pyval) :=
  [("a", VInt 3); ("b", VFloat 2); ("a", VInt 5)].

Definition new_logger : Logger :=
  Logger_init (Some "/tmp/x") [JSONOutputFormat 1; HumanOutputFormat sys_stdout].

Definition default_logger : Logger := Logger_init None [HumanOutputFormat sys_stdout].

(** a key of 28 characters *)
Definition long_key : string := "a_very_long_key_name_abcdefg".

Definition table_kvs : dict pyval := [("alpha", VInt 1); (long_key, VStr "short")].


Definition console_stream : File :=
  {| f_name := "<stdout>"; f_pending := ""; f_flushed := "" |}.

(** [logkv('pre', 1)] right after the import, then [configure()],
    [logkvs({'x': 2})] and [reset()] *)
Definition world_logged : World := (logkv "pre" (VInt 1) (fresh_world None)).2.
Definition world_configured : World := (configure None None world_logged).2.
Definition world_busy : World := (logkvs [("x", VInt 2)] world_configured).2.
Definition world_reset : World := (reset world_busy).2.

(** the state after [configure()] with OPENAI_LOGDIR set to /logs *)
Definition world_env : World := (configure None None (fresh_world (Some "/logs"))).2.

(** a Logger as [configure('/tmp/x', ['stdout', 'json'])] installs it,
    with nothing logged *)
Definition empty_logger : Logger :=
  Logger_init (Some "/tmp/x") [HumanOutputFormat sys_stdout; JSONOutputFormat 1].

(** the same Logger after [logkv('a', np.array([1, 2]))] *)
Definition array_logger_console_first : Logger :=
  {| name2val := array_kvs; level := INFO; dir := Some "/tmp/x";
     output_formats := [HumanOutputFormat sys_stdout; JSONOutputFormat 1] |}.

(** [logkv('a', 1); logkv('a', np.int64(3))] *)
Definition dtype_calls : list (string * pyval) := [("a", VInt 1); ("a", int64_3)].

(** the table and the record of [sample_kvs] as the console sink and the
    JSON sink of [sample_logger] write them *)
Definition sample_table : string :=
  String.concat nl ["----------------"; "| a | 3        |"; "| b | 2        |";
                    "----------------"] ++ nl.
Definition sample_record : string :=
  "{" ++ dquote ++ "b" ++ dquote ++ ": 2, " ++ dquote ++ "a" ++ dquote ++ ": 3.0}" ++ nl.

Definition float_list_error : exn :=
  TypeError "float() argument must be a string or a number, not 'list'".

(** ** Properties *)

Section properties.
Context `{Extern}.

(** *** Dictionaries *)

Lemma dict_get_set {V} (k k' : string) (v : V) (d : dict V) :
  dict_get k (dict_set k' v d) = if decide (k = k') then Some v else dict_get k d.
Proof.
  induction d as [|[k0 v0] d IH]; simpl.
  - by destruct (decide (k = k')).
  - destruct (decide (k' = k0)) as [->|Hne]; simpl.
    + by destruct (decide (k = k0)).
    + rewrite IH. destruct (decide (k = k0)) as [->|]; [|done].
      destruct (decide (k0 = k')); congruence.
Qed.

Lemma dict_set_nonempty {V} (k : string) (v : V) (d : dict V) : dict_set k v d ≠ [].
Proof. destruct d as [|[k0 v0] d]; simpl; [done|]. by destruct (decide (k = k0)). Qed.

Lemma fmap_absent_key {V} (k : string) (v : V) (d : dict V) :
  k ∉ dict_keys d →
  (λ kv, if decide (kv.1 = k) then (k, v) else kv) <$> d = d.
Proof.
  unfold dict_keys. induction d as [|[k1 v1] d IH]; intros Hk; [done|].
  rewrite fmap_cons in Hk. apply not_elem_of_cons in Hk as [Hne Hk].
  rewrite fmap_cons. simpl in *. rewrite decide_False by done.
  f_equal. by apply IH.
Qed.

(** assigning to a key that is present replaces its value where it stands *)
Lemma dict_set_present {V} (k : string) (v : V) (d : dict V) :
  k ∈ dict_keys d → dict_wf d →
  dict_set k v d = (λ kv, if decide (kv.1 = k) then (k, v) else kv) <$> d.
Proof.
  unfold dict_wf, dict_keys.
  induction d as [|[k0 v0] d IH]; intros Hin Hnd.
  - by apply elem_of_nil in Hin.
  - rewrite fmap_cons in Hin, Hnd. simpl in Hin, Hnd.
    apply list.NoDup_cons in Hnd as [Hk0 Hnd].
    rewrite fmap_cons. simpl.
    destruct (decide (k = k0)) as [->|Hne].
    + rewrite decide_True by done. f_equal.
      symmetry. by apply fmap_absent_key.
    + rewrite decide_False by done. f_equal. apply IH; [|done].
      apply elem_of_cons in Hin as [?|?]; done.
Qed.

Lemma dict_set_keys_present {V} (k : string) (v : V) (d : dict V) :
  k ∈ dict_keys d → dict_keys (dict_set k v d) = dict_keys d.
Proof.
  unfold dict_keys. induction d as [|[k0 v0] d IH]; simpl; intros Hin.
  - by apply elem_of_nil in Hin.
  - destruct (decide (k = k0)) as [->|Hne]; simpl; [done|].
    f_equal. apply IH. apply elem_of_cons in Hin as [?|?]; done.
Qed.

Lemma dict_set_wf {V} (k : string) (v : V) (d : dict V) :
  dict_wf d → dict_wf (dict_set k v d).
Proof.
  unfold dict_wf, dict_keys. induction d as [|[k0 v0] d IH]; simpl; intros Hnd.
  - apply NoDup_singleton.
  - apply list.NoDup_cons in Hnd as [Hk0 Hnd].
    destruct (decide (k = k0)) as [->|Hne]; simpl.
    + by apply list.NoDup_cons.
    + apply list.NoDup_cons. split; [|by apply IH].
      intros Hin. apply Hk0.
      clear IH Hnd Hk0. induction d as [|[k1 v1] d IH]; simpl in *.
      * apply list_elem_of_singleton in Hin. congruence.
      * destruct (decide (k = k1)) as [->|]; simpl in *; [done|].
        apply elem_of_cons in Hin as [->|?]; [left|right; by apply IH].
Qed.

Lemma last_write_cons (k k1 : string) (v1 : pyval) (calls : list (string * pyval)) :
  last_write k ((k1, v1) :: calls) =
  match last_write k calls with
  | Some v => Some v
  | None => if decide (k1 = k) then Some v1 else None
  end.
Proof.
  unfold last_write. rewrite filter_cons. simpl.
  destruct (decide (k1 = k)); [|by destruct (list.last _)].
  rewrite last_cons. by destruct (list.last _).
Qed.

(** last write wins, whatever the buffer held before *)
Lemma logkv_sequence_get (calls : list (string * pyval)) (d : dict pyval) (k : string) :
  dict_get k (foldl (λ d kv, dict_set kv.1 kv.2 d) d calls) =
  match last_write k calls with
  | Some v => Some v
  | None => dict_get k d
  end.
Proof.
  revert d. induction calls as [|[k1 v1] calls IH]; intros d; simpl; [done|].
  rewrite IH, last_write_cons. destruct (last_write k calls); [done|].
  rewrite dict_get_set. destruct (decide (k = k1)), (decide (k1 = k)); congruence.
Qed.

Lemma logkv_sequence_wf (calls : list (string * pyval)) (d : dict pyval) :
  dict_wf d → dict_wf (foldl (λ d kv, dict_set kv.1 kv.2 d) d calls).
Proof.
  revert d. induction calls as [|[k1 v1] calls IH]; intros d Hd; simpl; [done|].
  apply IH. by apply dict_set_wf.
Qed.

Lemma Logger_logkv_sequence (calls : list (string * pyval)) (L : Logger) (s : Sys) :
  for_each (λ kv, Logger_logkv kv.1 kv.2) calls (L, s) =
  (Return tt, (set_name2val (foldl (λ d kv, dict_set kv.1 kv.2 d) (name2val L) calls) L, s)).
Proof.
  revert L. induction calls as [|[k1 v1] calls IH]; intros L; simpl.
  - by destruct L.
  - unfold bind. simpl. rewrite IH. by destruct L.
Qed.

Lemma dict_wf_unique {V} (d : dict V) (k : string) (v v' : V) :
  dict_wf d → (k, v) ∈ d → (k, v') ∈ d → v = v'.
Proof.
  unfold dict_wf, dict_keys. induction d as [|[k0 v0] d IH]; intros Hnd Hv Hv'.
  - by apply elem_of_nil in Hv.
  - rewrite fmap_cons in Hnd. apply list.NoDup_cons in Hnd as [Hk0 Hnd].
    apply elem_of_cons in Hv as [Hv|Hv], Hv' as [Hv'|Hv'].
    + congruence.
    + exfalso. apply Hk0. injection Hv as -> ->.
      by apply (list_elem_of_fmap_2 fst) in Hv'.
    + exfalso. apply Hk0. injection Hv' as -> ->.
      by apply (list_elem_of_fmap_2 fst) in Hv.
    + by apply IH.
Qed.

Lemma forallb_Permutation {A} (f : A → bool) (l l' : list A) :
  l ≡ₚ l' → forallb f l = forallb f l'.
Proof.
  induction 1 as [|x l l' _ IH|x y l|l l' l'' _ IH1 _ IH2]; simpl.
  - done.
  - by rewrite IH.
  - by destruct (f x), (f y).
  - by rewrite IH1.
Qed.

(** *** The loop of JSONOutputFormat.writekvs *)

(** the loop run over part of the entries of [d]: exactly these entries are
    converted, each where it stands *)
Lemma JSON_convert_items (items : list (string * pyval)) (d : dict pyval) :
  NoDup items.*1 → (∀ kv, kv ∈ items → kv ∈ d) → dict_wf d →
  ∃ r d', for_each JSON_convert items d = (r, d') ∧
          dict_keys d' = dict_keys d ∧
          if forallb (λ kv, convertible kv.2) items
          then r = Return tt ∧
               d' = (λ kv, if decide (kv.1 ∈ items.*1)
                           then (kv.1, coerce kv.2) else kv) <$> d
          else ∃ e, r = Raise e.
Proof.
  revert d. induction items as [|[k v] items IH]; intros d Hnd Hsub Hwf.
  - exists (Return tt), d. repeat split; simpl.
    rewrite <- (list_fmap_id d) at 1. apply list_fmap_ext. intros i kv _.
    done.
  - rewrite fmap_cons in Hnd. apply list.NoDup_cons in Hnd as [Hk Hnd]. simpl in Hk.
    assert (Hkv : (k, v) ∈ d) by (apply Hsub; left).
    assert (Hrest : ∀ kv, kv ∈ items → kv ∈ d) by (intros kv ?; apply Hsub; by right).
    assert (Hother : ∀ kv, kv ∈ d → kv.1 ≠ k →
              (if decide (kv.1 ∈ (k :: items.*1)) then (kv.1, coerce kv.2) else kv) =
              (if decide (kv.1 ∈ items.*1) then (kv.1, coerce kv.2) else kv)).
    { intros kv _ Hne. destruct (decide (kv.1 ∈ items.*1)) as [Hin|Hnin].
      - rewrite decide_True; [done|by right].
      - rewrite decide_False; [done|]. by apply not_elem_of_cons. }
    assert (Hplain : coerce v = v →
      ∃ r d', for_each JSON_convert items d = (r, d') ∧
          dict_keys d' = dict_keys d ∧
          if forallb (λ kv, convertible kv.2) items
          then r = Return tt ∧
               d' = (λ kv, if decide (kv.1 ∈ (k :: items.*1))
                           then (kv.1, coerce kv.2) else kv) <$> d
          else ∃ e, r = Raise e).
    { intros Hv. destruct (IH d Hnd Hrest Hwf) as (r & d' & Hrun & Hkeys & Hres).
      exists r, d'. split; [done|]. split; [done|].
      destruct (forallb _ items); [|done].
      destruct Hres as [-> ->]. split; [done|].
      apply list_fmap_ext. intros i [k0 v0] Hi. apply list_elem_of_lookup_2 in Hi.
      destruct (decide (k0 = k)) as [->|Hne].
      - assert (v0 = v) as -> by exact (dict_wf_unique d k _ _ Hwf Hi Hkv).
        simpl. rewrite decide_False by done.
        rewrite decide_True by left. by rewrite Hv.
      - symmetry. by apply Hother. }
    destruct v as [z|x|t|a]; simpl;
      try (unfold bind; simpl; by apply Hplain).
    unfold JSON_convert, bind, lift_outcome, modify. simpl.
    destruct (np_tolist_float a) as [x|e] eqn:Hconv; simpl.
    + set (d1 := dict_set k (VFloat x) d).
      assert (Hkin : k ∈ dict_keys d) by (by apply (list_elem_of_fmap_2 fst) in Hkv).
      assert (Hd1 : d1 = (λ kv, if decide (kv.1 = k) then (k, VFloat x) else kv) <$> d)
        by (by apply dict_set_present).
      assert (Hwf1 : dict_wf d1) by (by apply dict_set_wf).
      assert (Hrest1 : ∀ kv, kv ∈ items → kv ∈ d1).
      { intros kv Hin. rewrite Hd1. apply list_elem_of_fmap. exists kv. split; [|by apply Hrest].
        rewrite decide_False; [done|]. intros <-. apply Hk.
        by apply (list_elem_of_fmap_2 fst) in Hin. }
      destruct (IH d1 Hnd Hrest1 Hwf1) as (r & d' & Hrun & Hkeys & Hres).
      exists r, d'. split; [done|]. split.
      { rewrite Hkeys. by apply dict_set_keys_present. }
      destruct (forallb _ items); [|done].
      destruct Hres as [-> ->]. split; [done|].
      rewrite Hd1, <- list_fmap_compose.
      apply list_fmap_ext. intros i [k0 v0] Hi. apply list_elem_of_lookup_2 in Hi.
      simpl. destruct (decide (k0 = k)) as [->|Hne]; simpl.
      * assert (v0 = VNp a) as -> by exact (dict_wf_unique d k _ _ Hwf Hi Hkv).
        rewrite (decide_True (P := k ∈ k :: _)) by left.
        simpl. rewrite Hconv. by destruct (decide (k ∈ items.*1)).
      * symmetry. by apply (Hother (k0, v0)).
    + exists (Raise e), d. split; [done|]. split; [done|]. by exists e.
Qed.

Lemma sorted_items_Permutation {V} (d : dict V) : sorted_items d ≡ₚ d.
Proof. apply merge_sort_Permutation. Qed.

Lemma json_members_coerced (kvs : dict pyval) :
  forallb (λ kv, convertible kv.2) kvs = true →
  ∃ xs, json_members (json_coerced kvs) = Return xs.
Proof.
  induction kvs as [|[k v] kvs IH]; intros Hall; [by eexists|].
  simpl in Hall. apply andb_prop in Hall as [Hv Hall]. destruct (IH Hall) as [xs Hxs].
  unfold json_coerced in *. rewrite fmap_cons. cbn [json_members fst snd]. rewrite Hxs.
  destruct v as [z|x|t|a]; simpl; try by eexists.
  simpl in Hv. destruct (np_tolist_float a); [by eexists|done].
Qed.

(** a call of [JSONOutputFormat.writekvs] on a well-formed mapping: either
    every value with a dtype converts, and the mapping is left with these
    values converted where they stand and one line goes to the file; or the
    call raises, nothing is written and no key is lost *)
Lemma JSON_writekvs_spec (file : nat) (kvs : dict pyval) (s : Sys) :
  dict_wf kvs →
  ∃ r kvs' s',
    JSON_writekvs file (kvs, s) = (r, (kvs', s')) ∧
    dict_keys kvs' = dict_keys kvs ∧
    kv_calls s' = kv_calls s ∧
    if forallb (λ kv, convertible kv.2) kvs
    then ∃ text, json_dumps (json_coerced kvs) = Return text ∧
                 r = Return tt ∧ kvs' = json_coerced kvs ∧
                 s' = set_files (alter File_flush file)
                        (set_files (alter (File_write (text ++ nl)) file) s)
    else (∃ e, r = Raise e) ∧ s' = s.
Proof.
  intros Hwf.
  pose proof (sorted_items_Permutation kvs) as Hperm.
  destruct (JSON_convert_items (sorted_items kvs) kvs) as (r & d' & Hrun & Hkeys & Hres).
  { unfold dict_wf, dict_keys in Hwf. by rewrite Hperm. }
  { intros kv. by rewrite Hperm. }
  { done. }
  rewrite (forallb_Permutation _ _ _ Hperm) in Hres.
  unfold JSON_writekvs, bind, gets, zoom_fst, zoom_snd. simpl. rewrite Hrun.
  destruct (forallb _ kvs) eqn:Hall.
  - destruct Hres as [-> Hd'].
    assert (d' = json_coerced kvs) as ->.
    { rewrite Hd'. apply list_fmap_ext. intros i kv Hi.
      apply list_elem_of_lookup_2 in Hi. rewrite decide_True; [done|].
      rewrite Hperm. by apply (list_elem_of_fmap_2 fst) in Hi. }
    destruct (json_members_coerced kvs Hall) as [xs Hxs].
    simpl. unfold lift_outcome, json_dumps. rewrite Hxs. simpl.
    eexists _, _, _. split; [done|]. split; [done|]. split; [done|].
    eexists. by repeat split.
  - destruct Hres as [e ->]. simpl.
    eexists _, _, _. split; [done|]. split; [done|]. split; [done|].
    split; [by exists e|done].
Qed.

(** *** HumanOutputFormat.writekvs *)

Lemma key2str_nonempty (kvs : dict pyval) : kvs ≠ [] → key2str_of kvs ≠ [].
Proof.
  intros Hne. unfold key2str_of.
  assert (Hs : sorted_items kvs ≠ []).
  { intros Hnil. apply Hne. apply Permutation_nil_r.
    rewrite <- Hnil. symmetry. apply sorted_items_Permutation. }
  destruct (sorted_items kvs) as [|kv l _] using rev_ind; [done|].
  rewrite foldl_snoc. destruct kv as [k v]. apply dict_set_nonempty.
Qed.

(** on an empty mapping the call raises at [max] before it writes; on any
    other mapping it returns, after one [write] and one [flush] *)
Lemma Human_writekvs_spec (file : nat) (kvs : dict pyval) (s : Sys) :
  match kvs with
  | [] => Human_writekvs file kvs s =
          (Raise (ValueError "max() arg is an empty sequence"), s)
  | _ :: _ => ∃ text, Human_writekvs file kvs s =
                (Return tt, set_files (alter File_flush file)
                              (set_files (alter (File_write text) file) s))
  end.
Proof.
  destruct kvs as [|kv kvs]; [reflexivity|].
  unfold Human_writekvs.
  pose proof (key2str_nonempty (kv :: kvs)) as Hne.
  destruct (key2str_of (kv :: kvs)) as [|[k v] d]; [by destruct Hne|].
  by eexists.
Qed.

(** *** TensorBoardOutputFormat.writekvs *)

Lemma summary_vals_spec (kvs : dict pyval) (s : Sys) :
  ∃ r, comprehension summary_val kvs s = (r, s) ∧
       returned r = forallb (λ kv, returned (py_float kv.2)) kvs.
Proof.
  induction kvs as [|[k v] kvs IH]; [by eexists|].
  assert (Hhead : summary_val (k, v) s =
                  match py_float v with
                  | Return x => (Return (k, x), s)
                  | Raise e => (Raise e, s)
                  end).
  { unfold summary_val, bind, lift_outcome. simpl. by destruct (py_float v). }
  cbn [comprehension forallb snd]. unfold bind at 1. rewrite Hhead.
  destruct (py_float v) as [x|e]; simpl; [|by eexists].
  unfold bind. destruct IH as (r & -> & <-). destruct r; by eexists.
Qed.

Lemma TensorBoard_writekvs_spec dir step writer (kvs : dict pyval) (s : Sys) :
  ∃ r s',
    TensorBoard_writekvs dir step writer kvs s = (r, s') ∧
    kv_calls s' = kv_calls s ∧
    if accepts (TensorBoardOutputFormat dir step writer) kvs
    then r = Return (TensorBoardOutputFormat dir (step + 1) writer)
    else ∃ e, r = Raise e.
Proof.
  unfold TensorBoard_writekvs, bind. simpl.
  destruct (summary_vals_spec kvs s) as (r & -> & Hr). rewrite <- Hr.
  destruct r as [value|e]; simpl.
  - destruct writer as [wr|]; simpl;
      eexists _, _; (split; [done|]); (split; [done|]); by eauto.
  - eexists _, _. split; [done|]. split; [done|]. by eauto.
Qed.

(** *** Any sink *)

(** every call is recorded, loses no key, and returns exactly when the sink
    accepts the mapping, leaving it as [left_by] says *)
Lemma writekvs_spec (fmt : OutputFormat) (kvs : dict pyval) (s : Sys) :
  dict_wf kvs →
  ∃ r fmt' kvs' s',
    writekvs (fmt, kvs, s) = (r, (fmt', kvs', s')) ∧
    kv_calls s' = (kv_calls s ++ [(fmt, kvs)])%list ∧
    dict_keys kvs' = dict_keys kvs ∧
    if accepts fmt kvs then r = Return tt ∧ kvs' = left_by fmt kvs
    else ∃ e, r = Raise e.
Proof.
  intros Hwf. destruct fmt as [|file|file|dir step writer]; simpl.
  - eexists _, _, _, _. by eauto.
  - pose proof (Human_writekvs_spec file kvs (record_call (HumanOutputFormat file) kvs s)) as Hh.
    destruct kvs as [|kv kvs].
    + rewrite Hh. eexists _, _, _, _. by eauto.
    + destruct Hh as [text ->]. eexists _, _, _, _. by eauto.
  - destruct (JSON_writekvs_spec file kvs (record_call (JSONOutputFormat file) kvs s) Hwf)
      as (r & kvs' & s' & -> & Hkeys & Hcalls & Hres).
    eexists _, _, _, _. split; [done|]. split; [by rewrite Hcalls|]. split; [done|].
    destruct (forallb _ kvs).
    + by destruct Hres as (text & _ & -> & -> & _).
    + by destruct Hres as [[e ->] _]; eauto.
  - destruct (TensorBoard_writekvs_spec dir step writer kvs
                (record_call (TensorBoardOutputFormat dir step writer) kvs s))
      as (r & s' & -> & Hcalls & Hres).
    simpl in Hres. destruct (forallb _ kvs && _).
    + subst r. eexists _, _, _, _. by rewrite Hcalls.
    + destruct Hres as [e ->]. eexists _, _, _, _. rewrite Hcalls. by eauto.
Qed.

(** *** The fan-out of dumpkvs *)

Lemma left_by_keys (fmt : OutputFormat) (kvs : dict pyval) :
  dict_keys (left_by fmt kvs) = dict_keys kvs.
Proof.
  destruct fmt; simpl; try done.
  unfold dict_keys, json_coerced. rewrite <- list_fmap_compose.
  by apply list_fmap_ext.
Qed.

Lemma dump_calls_sinks (fmts : list OutputFormat) (kvs : dict pyval) :
  (dump_calls fmts kvs).*1 = fmts.
Proof.
  revert kvs. induction fmts as [|fmt fmts IH]; intros kvs; simpl; [done|].
  by rewrite IH.
Qed.

Lemma reached_all (fmts : list OutputFormat) (kvs : dict pyval) :
  dump_ok fmts kvs = true →
  take (reached fmts kvs) (dump_calls fmts kvs) = dump_calls fmts kvs.
Proof.
  revert kvs. induction fmts as [|fmt fmts IH]; intros kvs; simpl; [done|].
  intros Hok. apply andb_prop in Hok as [-> Hok]. by rewrite IH.
Qed.

Lemma reached_stop (fmts : list OutputFormat) (kvs : dict pyval) :
  dump_ok fmts kvs = false →
  ∃ pre fmt post,
    fmts = (pre ++ fmt :: post)%list ∧
    (take (reached fmts kvs) (dump_calls fmts kvs)).*1 = (pre ++ [fmt])%list.
Proof.
  revert kvs. induction fmts as [|fmt fmts IH]; intros kvs; simpl; [done|].
  destruct (accepts fmt kvs); simpl.
  - intros Hok. destruct (IH _ Hok) as (pre & f & post & -> & Hcalls).
    exists (fmt :: pre), f, post. split; [done|].
    cbn [take fmap list_fmap fst app]. f_equal. exact Hcalls.
  - intros _. by exists [], fmt, fmts.
Qed.

(** the loop calls the sinks in the order of the list, each on the buffer
    as it stands, up to the first call that raises; no key leaves the
    buffer; the loop ends normally exactly when every call returned *)
Lemma dump_loop_spec (fmts : list OutputFormat) (kvs : dict pyval) (s : Sys) :
  dict_wf kvs →
  ∃ r fmts' kvs' s',
    dump_loop fmts kvs s = (r, (fmts', kvs', s')) ∧
    kv_calls s' = (kv_calls s ++ take (reached fmts kvs) (dump_calls fmts kvs))%list ∧
    dict_keys kvs' = dict_keys kvs ∧
    returned r = dump_ok fmts kvs.
Proof.
  revert kvs s. induction fmts as [|fmt fmts IH]; intros kvs s Hwf.
  - exists (Return tt), [], kvs, s. simpl. by rewrite app_nil_r.
  - destruct (writekvs_spec fmt kvs s Hwf) as (r1 & fmt' & kvs1 & s1 & Hrun & Hcalls & Hkeys & Hres).
    cbn [dump_loop dump_calls reached dump_ok]. rewrite Hrun.
    destruct (accepts fmt kvs).
    + destruct Hres as [-> ->].
      assert (Hwf1 : dict_wf (left_by fmt kvs)).
      { unfold dict_wf. by rewrite left_by_keys. }
      destruct (IH (left_by fmt kvs) s1 Hwf1) as (r & fmts' & kvs' & s' & -> & Hcalls' & Hkeys' & Hr).
      exists r, (fmt' :: fmts'), kvs', s'. split; [done|].
      split; [|split; [by rewrite Hkeys', left_by_keys|done]].
      rewrite Hcalls', Hcalls, <- app_assoc. done.
    + destruct Hres as [e ->].
      exists (Raise e), (fmt' :: fmts), kvs1, s1. split; [done|].
      split; [|done]. by rewrite Hcalls.
Qed.

(** *** The fan-out relation and the loop *)

Lemma fan_out_dump_loop fmts kvs s calls r fmts' kvs' s' :
  fan_out fmts kvs s calls r fmts' kvs' s' →
  dump_loop fmts kvs s = (r, (fmts', kvs', s')).
Proof.
  induction 1 as [kvs s|fmt rest kvs s e fmt' kvs' s' Hrun
                  |fmt rest kvs s fmt' kvs1 s1 calls r rest' kvs' s' Hrun _ IH];
    cbn [dump_loop]; [done|by rewrite Hrun|]. by rewrite Hrun, IH.
Qed.

Lemma dump_loop_fan_out (fmts : list OutputFormat) (kvs : dict pyval) (s : Sys) :
  ∃ calls r fmts' kvs' s',
    dump_loop fmts kvs s = (r, (fmts', kvs', s')) ∧
    fan_out fmts kvs s calls r fmts' kvs' s'.
Proof.
  revert kvs s. induction fmts as [|fmt rest IH]; intros kvs s.
  - eexists _, _, _, _, _. split; [reflexivity|constructor].
  - cbn [dump_loop].
    destruct (writekvs (fmt, kvs, s)) as [[[]|e] [[fmt' kvs1] s1]] eqn:Hrun.
    + destruct (IH kvs1 s1) as (calls & r & rest' & kvs' & s' & -> & Hfan).
      eexists _, _, _, _, _. split; [reflexivity|]. by eapply fan_out_next.
    + eexists _, _, _, _, _. split; [reflexivity|]. by apply fan_out_raise.
Qed.

(** a fan-out that ends normally has called every sink, in order *)
Lemma fan_out_returned_sinks fmts kvs s calls fmts' kvs' s' :
  fan_out fmts kvs s calls (Return tt) fmts' kvs' s' → calls.*1 = fmts.
Proof.
  remember (Return tt) as r eqn:Hr.
  induction 1 as [| |fmt rest kvs s fmt' kvs1 s1 calls r rest' kvs' s' _ _ IH];
    [done|done|]. rewrite fmap_cons. simpl. by rewrite IH.
Qed.

(** on a well-formed buffer: the calls of a fan-out are the first ones of
    [dump_calls], they are what the history records, no key is lost, and the
    fan-out ends normally exactly when every sink accepts its buffer *)
Lemma fan_out_calls fmts kvs s calls r fmts' kvs' s' :
  fan_out fmts kvs s calls r fmts' kvs' s' →
  dict_wf kvs →
  calls = take (reached fmts kvs) (dump_calls fmts kvs) ∧
  kv_calls s' = (kv_calls s ++ calls)%list ∧
  dict_keys kvs' = dict_keys kvs ∧
  returned r = dump_ok fmts kvs.
Proof.
  induction 1 as [kvs s|fmt rest kvs s e fmt' kvs' s' Hrun
                  |fmt rest kvs s fmt' kvs1 s1 calls r rest' kvs' s' Hrun _ IH];
    intros Hwf.
  - simpl. by rewrite app_nil_r.
  - destruct (writekvs_spec fmt kvs s Hwf) as (r1 & f1 & k1 & t1 & Hrun' & Hcalls & Hkeys & Hres).
    rewrite Hrun in Hrun'. injection Hrun' as <- <- <- <-.
    cbn [reached dump_calls dump_ok]. destruct (accepts fmt kvs); [by destruct Hres|].
    done.
  - destruct (writekvs_spec fmt kvs s Hwf) as (r1 & f1 & k1 & t1 & Hrun' & Hcalls & Hkeys & Hres).
    rewrite Hrun in Hrun'. injection Hrun' as <- <- <- <-.
    cbn [reached dump_calls dump_ok].
    destruct (accepts fmt kvs); [|by destruct Hres as [e ?]].
    destruct Hres as [_ ->].
    destruct IH as (Hc & Hk & Hkeys' & Hr).
    { unfold dict_wf. by rewrite left_by_keys. }
    cbn [take andb]. split; [by rewrite <- Hc|].
    split; [by rewrite Hk, Hcalls, <- app_assoc|].
    split; [by rewrite Hkeys', left_by_keys|done].
Qed.

(** a call that raises leaves the sink itself as it was *)
Lemma writekvs_raise_self fmt kvs s e fmt' kvs' s' :
  writekvs (fmt, kvs, s) = (Raise e, (fmt', kvs', s')) → fmt' = fmt.
Proof.
  destruct fmt as [|file|file|dir step writer]; cbn [writekvs].
  - by intros [= _ <- _ _].
  - destruct (Human_writekvs _ _ _) as [r t]. by intros [= _ <- _ _].
  - destruct (JSON_writekvs _ _) as [r [k t]]. by intros [= _ <- _ _].
  - destruct (TensorBoard_writekvs _ _ _ _ _) as [[f|e1] t]; [done|].
    by intros [= _ <- _ _].
Qed.

(** the sinks before the first failing one, the failing call, and the rest *)
Lemma fan_out_raise_at pre fmt post kvs s calls pre' kvs1 s1 e fmt' kvs2 s2 :
  fan_out pre kvs s calls (Return tt) pre' kvs1 s1 →
  writekvs (fmt, kvs1, s1) = (Raise e, (fmt', kvs2, s2)) →
  fan_out (pre ++ fmt :: post) kvs s (calls ++ [(fmt, kvs1)]) (Raise e)
          (pre' ++ fmt' :: post) kvs2 s2.
Proof.
  intros Hpre Hrun. remember (Return tt) as r eqn:Hr.
  induction Hpre as [kvs s| |f rest kvs s f' k1 t1 calls r rest' kvs' s' Hf _ IH].
  - by apply fan_out_raise.
  - done.
  - cbn [app]. eapply fan_out_next; [exact Hf|]. by apply IH.
Qed.

Lemma fan_out_raise_split fmts kvs s calls e fmts' kvs' s' :
  fan_out fmts kvs s calls (Raise e) fmts' kvs' s' →
  ∃ pre fmt post before pre' kvs1 s1,
    fmts = (pre ++ fmt :: post)%list ∧
    fan_out pre kvs s before (Return tt) pre' kvs1 s1 ∧
    writekvs (fmt, kvs1, s1) = (Raise e, (fmt, kvs', s')) ∧
    fmts' = (pre' ++ fmt :: post)%list ∧
    calls = (before ++ [(fmt, kvs1)])%list.
Proof.
  remember (Raise e) as r eqn:Hr.
  induction 1 as [|fmt rest kvs s e0 fmt' kvs' s' Hrun
                  |fmt rest kvs s fmt' kvs1 s1 calls r rest' kvs' s' Hrun _ IH].
  - done.
  - injection Hr as ->. pose proof (writekvs_raise_self _ _ _ _ _ _ _ Hrun) as ->.
    exists [], fmt, rest, [], [], kvs, s. repeat split; [constructor|done].
  - destruct (IH Hr) as (pre & f & post & before & pre' & k1 & t1 & -> & Hpre & Hf & -> & ->).
    exists (fmt :: pre), f, post, ((fmt, kvs) :: before), (fmt' :: pre'), k1, t1.
    repeat split; [|done]. by eapply fan_out_next.
Qed.

(** C1, as the code has it.  [dumpkvs] on a Logger whose threshold is
    DISABLED changes nothing and calls no sink.  On any other Logger, with
    an empty sink list it only clears the buffer.  When every [writekvs]
    call of the fan-out returns, [dumpkvs] returns, the store and the sinks
    are exactly as these calls left them, one after the other in the order
    of the list and each on the buffer as it stands, and the buffer is
    empty; and [dumpkvs] returns in no other case.  On a well-formed buffer
    the calls are those of [dump_calls], and the history holds them. *)
Theorem C1_dumpkvs_writes_every_sink_then_clears (L : Logger) (s : Sys) :
  (level L = DISABLED → Logger_dumpkvs (L, s) = (Return tt, (L, s))) ∧
  (level L ≠ DISABLED → output_formats L = [] →
     Logger_dumpkvs (L, s) = (Return tt, (set_name2val [] L, s))) ∧
  (level L ≠ DISABLED →
     ∀ calls fmts' kvs' s',
       fan_out (output_formats L) (name2val L) s calls (Return tt) fmts' kvs' s' →
       Logger_dumpkvs (L, s) = (Return tt, (dumped fmts' L, s')) ∧
       calls.*1 = output_formats L ∧
       (dict_wf (name2val L) →
          calls = dump_calls (output_formats L) (name2val L) ∧
          kv_calls s' = (kv_calls s ++ calls)%list)) ∧
  (level L ≠ DISABLED →
     ∀ L' s',
       Logger_dumpkvs (L, s) = (Return tt, (L', s')) →
       ∃ calls fmts' kvs',
         fan_out (output_formats L) (name2val L) s calls (Return tt) fmts' kvs' s' ∧
         L' = dumped fmts' L).
Proof.
  split; [|split; [|split]].
  - intros Hlvl. cbn [Logger_dumpkvs]. by rewrite decide_True.
  - intros Hlvl Hfmts. cbn [Logger_dumpkvs]. rewrite decide_False by done.
    rewrite Hfmts. simpl. destruct L; simpl in *. by subst.
  - intros Hlvl calls fmts' kvs' s' Hfan. split; [|split].
    + cbn [Logger_dumpkvs]. rewrite decide_False by done.
      by rewrite (fan_out_dump_loop _ _ _ _ _ _ _ _ Hfan).
    + by eapply fan_out_returned_sinks.
    + intros Hwf. destruct (fan_out_calls _ _ _ _ _ _ _ _ Hfan Hwf) as (Hc & Hk & _ & Hr).
      split; [|done]. rewrite Hc. apply reached_all. by rewrite <- Hr.
  - intros Hlvl L' s'. cbn [Logger_dumpkvs]. rewrite decide_False by done.
    destruct (dump_loop_fan_out (output_formats L) (name2val L) s)
      as (calls & r & fmts' & kvs' & s1 & -> & Hfan).
    destruct r as [[]|e]; [|done]. intros [= <- <-]. by exists calls, fmts', kvs'.
Qed.

(** C2, as the code has it.  When the sinks before some sink have all
    returned and that sink's [writekvs] raises, [dumpkvs] raises the same
    exception: the store is the one the failing call left, so no sink after
    it was called or written to, the sinks after it are untouched, and the
    buffer is not cleared: it is the buffer as the failing call left it, with
    every key it had.  A [dumpkvs] that raises has always come to that. *)
Theorem C2_raise_skips_later_sinks_and_keeps_buffer (L : Logger) (s : Sys) :
  dict_wf (name2val L) →
  level L ≠ DISABLED →
  (∀ pre fmt post calls pre' kvs1 s1 e fmt' kvs2 s2,
     output_formats L = (pre ++ fmt :: post)%list →
     fan_out pre (name2val L) s calls (Return tt) pre' kvs1 s1 →
     writekvs (fmt, kvs1, s1) = (Raise e, (fmt', kvs2, s2)) →
     Logger_dumpkvs (L, s) =
       (Raise e, (interrupted (pre' ++ fmt :: post) kvs2 L, s2)) ∧
     calls.*1 = pre ∧
     kv_calls s2 = (kv_calls s ++ calls ++ [(fmt, kvs1)])%list ∧
     dict_keys kvs2 = dict_keys (name2val L)) ∧
  (∀ e L' s',
     Logger_dumpkvs (L, s) = (Raise e, (L', s')) →
     ∃ pre fmt post calls pre' kvs1 s1 kvs2,
       output_formats L = (pre ++ fmt :: post)%list ∧
       fan_out pre (name2val L) s calls (Return tt) pre' kvs1 s1 ∧
       writekvs (fmt, kvs1, s1) = (Raise e, (fmt, kvs2, s')) ∧
       L' = interrupted (pre' ++ fmt :: post) kvs2 L).
Proof.
  intros Hwf Hlvl. split.
  - intros pre fmt post calls pre' kvs1 s1 e fmt' kvs2 s2 Hfmts Hpre Hrun.
    pose proof (writekvs_raise_self _ _ _ _ _ _ _ Hrun) as ->.
    pose proof (fan_out_raise_at pre fmt post _ _ _ _ _ _ _ _ _ _ Hpre Hrun) as Hfan.
    rewrite <- Hfmts in Hfan.
    destruct (fan_out_calls _ _ _ _ _ _ _ _ Hfan Hwf) as (_ & Hk & Hkeys & _).
    split; [|split; [by eapply fan_out_returned_sinks|by split]].
    cbn [Logger_dumpkvs]. rewrite decide_False by done.
    by rewrite (fan_out_dump_loop _ _ _ _ _ _ _ _ Hfan).
  - intros e L' s'. cbn [Logger_dumpkvs]. rewrite decide_False by done.
    destruct (dump_loop_fan_out (output_formats L) (name2val L) s)
      as (calls & r & fmts' & kvs' & s1 & -> & Hfan).
    destruct r as [[]|e1]; [done|]. intros [= <- <- <-].
    destruct (fan_out_raise_split _ _ _ _ _ _ _ _ Hfan)
      as (pre & fmt & post & before & pre' & k1 & t1 & Hfmts & Hpre & Hrun & -> & _).
    by exists pre, fmt, post, before, pre', k1, t1, kvs'.
Qed.

(** *** log *)

Lemma writeseq_returns (fmt : OutputFormat) (args : list string) (s : Sys) :
  ∃ s', writeseq fmt args s = (Return tt, s').
Proof.
  destruct fmt as [|file|file|dir step writer]; simpl; try by eexists.
  unfold Human_writeseq, bind.
  assert (Hargs : ∃ s1, for_each (file_write file) args s = (Return tt, s1)).
  { revert s. induction args as [|a args IH]; intros s; simpl; [by eexists|].
    unfold bind. simpl. apply IH. }
  destruct Hargs as [s1 ->]. simpl. by eexists.
Qed.

Lemma _do_log_returns (args : list string) (L : Logger) (s : Sys) :
  ∃ s', _do_log args (L, s) = (Return tt, (L, s')).
Proof.
  unfold _do_log, bind, gets, zoom_snd. simpl.
  assert (Hall : ∃ s', for_each (λ fmt, writeseq fmt args) (output_formats L) s = (Return tt, s')).
  { revert s. induction (output_formats L) as [|fmt fmts IH]; intros s; simpl; [by eexists|].
    unfold bind. destruct (writeseq_returns fmt args s) as [s1 ->]. apply IH. }
  destruct Hall as [s' ->]. by eexists.
Qed.

Lemma Logger_log_forwards (args : list string) (lvl : Z) (L : Logger) (s : Sys) :
  level L ≤ lvl → Logger_log args lvl (L, s) = _do_log args (L, s).
Proof. intros Hle. unfold Logger_log, bind, gets. simpl. by rewrite decide_True. Qed.

Lemma Logger_log_suppresses (args : list string) (lvl : Z) (L : Logger) (s : Sys) :
  lvl < level L → Logger_log args lvl (L, s) = (Return tt, (L, s)).
Proof.
  intros Hlt. unfold Logger_log, bind, gets. simpl. rewrite decide_False; [done|lia].
Qed.

(** a [log] call returns and changes nothing but the files *)
Lemma log_spec (args : list string) (lvl : Z) (w : World) :
  ∃ s', log args lvl w =
        (Return tt, {| sys := s'; Logger_DEFAULT := Logger_DEFAULT w;
                       Logger_CURRENT := Logger_CURRENT w |}).
Proof.
  unfold log, on_current.
  assert (Hlog : ∃ s', Logger_log args lvl (current_logger w, sys w) =
                       (Return tt, (current_logger w, s'))).
  { destruct (decide (level (current_logger w) ≤ lvl)).
    - rewrite Logger_log_forwards by done. apply _do_log_returns.
    - rewrite Logger_log_suppresses by lia. by eexists. }
  destruct Hlog as [s' ->]. exists s'. f_equal.
  unfold put_current, current_logger. by destruct (Logger_CURRENT w).
Qed.

(** *** make_output_format and configure *)

Lemma known_format_cases (format : string) :
  known_format format = true ↔
  format = "stdout" ∨ format = "log" ∨ format = "json" ∨ format = "tensorboard".
Proof.
  unfold known_format. rewrite bool_decide_eq_true.
  rewrite !elem_of_cons, elem_of_nil. tauto.
Qed.

Lemma make_output_format_spec (format ev_dir : string) (s : Sys) :
  ∃ r s',
    make_output_format format ev_dir s = (r, s') ∧
    kv_calls s' = kv_calls s ∧
    if known_format format then ∃ fmt, r = Return fmt
    else r = Raise (ValueError ("Unknown format specified: " ++ format)).
Proof.
  unfold make_output_format, TensorBoard_init, makedirs, open_wt, new_EventsWriter,
    bind, modify, ret. simpl.
  destruct (known_format format) eqn:Hk.
  - apply known_format_cases in Hk as [-> | [-> | [-> | ->]]]; simpl;
      eexists _, _; (split; [reflexivity|]); (split; [reflexivity|]); by eexists.
  - assert (Hnot : ¬ (format = "stdout" ∨ format = "log" ∨ format = "json"
                       ∨ format = "tensorboard")).
    { rewrite <- known_format_cases. by rewrite Hk. }
    repeat (case_decide; [tauto|]). simpl. by eexists _, _.
Qed.

(** the list comprehension of [configure]: it returns the sinks when every
    name is known and raises at the first unknown name otherwise *)
Lemma make_formats_spec (format_strs : list string) (ev_dir : string) (s : Sys) :
  ∃ r s',
    comprehension (λ f, make_output_format f ev_dir) format_strs s = (r, s') ∧
    if forallb known_format format_strs then ∃ fmts, r = Return fmts
    else ∃ f, f ∈ format_strs ∧ known_format f = false ∧
              r = Raise (ValueError ("Unknown format specified: " ++ f)).
Proof.
  revert s. induction format_strs as [|f fs IH]; intros s.
  - eexists _, _. split; [reflexivity|]. by eexists.
  - cbn [comprehension forallb]. unfold bind at 1.
    destruct (make_output_format_spec f ev_dir s) as (r1 & s1 & -> & _ & Hr1).
    destruct (known_format f) eqn:Hk; simpl.
    + destruct Hr1 as [fmt ->]. unfold bind at 1.
      destruct (IH s1) as (r & s' & -> & Hr).
      destruct (forallb known_format fs).
      * destruct Hr as [fmts ->]. eexists _, _. split; [reflexivity|]. by eexists.
      * destruct Hr as (f' & Hin & Hk' & ->). eexists _, _. split; [reflexivity|].
        exists f'. split; [by right|done].
    + subst r1. eexists _, _. split; [reflexivity|].
      exists f. split; [by left|done].
Qed.

Lemma configure_unfold (dir : option string) (format_strs : option (list string))
    (w : World) :
  configure dir format_strs w =
  if current_is_default w then
    match comprehension (λ f, make_output_format f (resolved_dir dir (sys w)).1)
            (default LOG_OUTPUT_FORMATS format_strs) (resolved_dir dir (sys w)).2 with
    | (Return fmts, s2) =>
        log ["Logging to " ++ (resolved_dir dir (sys w)).1] INFO
          {| sys := s2; Logger_DEFAULT := Logger_DEFAULT w;
             Logger_CURRENT :=
               Installed (Logger_init (Some (resolved_dir dir (sys w)).1) fmts) |}
    | (Raise e, s2) =>
        (Raise e, {| sys := s2; Logger_DEFAULT := Logger_DEFAULT w;
                     Logger_CURRENT := Logger_CURRENT w |})
    end
  else (Raise (AssertionError assertion_message), w).
Proof.
  unfold configure, bind, gets, on_sys, set_CURRENT, modify, fresh_tmp_dir, resolved_dir.
  destruct (current_is_default w); simpl; [|done].
  destruct dir as [d|]; simpl.
  - by destruct (comprehension _ _ _) as [[fmts|e] s2].
  - destruct (OPENAI_LOGDIR (sys w)) as [d|]; simpl;
      by destruct (comprehension _ _ _) as [[fmts|e] s2].
Qed.

(** [configure] in full: the assertion, then the sinks, then the new Logger *)
Lemma configure_spec (dir : option string) (format_strs : option (list string)) (w : World) :
  ∃ r w',
    configure dir format_strs w = (r, w') ∧
    Logger_DEFAULT w' = Logger_DEFAULT w ∧
    if current_is_default w then
      if forallb known_format (default LOG_OUTPUT_FORMATS format_strs) then
        r = Return tt ∧
        ∃ fmts, Logger_CURRENT w' =
                Installed (Logger_init (Some (resolved_dir dir (sys w)).1) fmts)
      else
        Logger_CURRENT w' = Logger_CURRENT w ∧
        ∃ f, f ∈ default LOG_OUTPUT_FORMATS format_strs ∧ known_format f = false ∧
             r = Raise (ValueError ("Unknown format specified: " ++ f))
    else r = Raise (AssertionError assertion_message) ∧ w' = w.
Proof.
  rewrite configure_unfold. destruct (current_is_default w); [|by eexists _, _].
  destruct (make_formats_spec (default LOG_OUTPUT_FORMATS format_strs)
              (resolved_dir dir (sys w)).1 (resolved_dir dir (sys w)).2)
    as (r & s2 & -> & Hr).
  destruct (forallb known_format _).
  - destruct Hr as [fmts ->].
    match goal with |- context [log ?a ?l ?w0] => destruct (log_spec a l w0) as [s3 ->] end.
    eexists _, _. split; [reflexivity|]. split; [done|]. split; [done|]. by exists fmts.
  - destruct Hr as (f & Hin & Hk & ->).
    eexists _, _. split; [reflexivity|]. split; [done|]. split; [done|]. by exists f.
Qed.

Lemma reset_spec (w : World) :
  ∃ s', reset w = (Return tt, {| sys := s'; Logger_DEFAULT := Logger_DEFAULT w;
                                 Logger_CURRENT := IsDefault |}).
Proof.
  unfold reset, bind, set_CURRENT, modify. simpl.
  match goal with |- context [log ?a ?l ?w0] => destruct (log_spec a l w0) as [s' ->] end.
  by exists s'.
Qed.

(** C3. [configure] raises its assertion error, and changes nothing,
    whenever the current Logger is not the default object; a [configure]
    that returned has installed another object, so a second [configure] right
    after it raises; [reset] makes the default object current again, and a
    [configure] after it returns (given format names the factory knows, as
    the default ones are). *)
Theorem C3_configure_asserts_default_and_reset_restores (w : World) :
  (current_is_default w = false →
     ∀ dir format_strs,
       configure dir format_strs w = (Raise (AssertionError assertion_message), w)) ∧
  (∀ dir format_strs w1,
     configure dir format_strs w = (Return tt, w1) →
     ∀ dir' format_strs',
       configure dir' format_strs' w1 = (Raise (AssertionError assertion_message), w1)) ∧
  (∃ w1,
     reset w = (Return tt, w1) ∧
     Logger_CURRENT w1 = IsDefault ∧
     Logger_DEFAULT w1 = Logger_DEFAULT w ∧
     (∀ dir, ∃ w2, configure dir None w1 = (Return tt, w2)) ∧
     (∀ dir format_strs,
        forallb known_format format_strs = true →
        ∃ w2, configure dir (Some format_strs) w1 = (Return tt, w2))).
Proof.
  assert (Hfails : ∀ w0, current_is_default w0 = false →
            ∀ dir format_strs,
              configure dir format_strs w0 = (Raise (AssertionError assertion_message), w0)).
  { intros w0 Hcur dir fs. rewrite configure_unfold. by rewrite Hcur. }
  split; [by apply Hfails|]. split.
  - intros dir fs w1 Hrun dir' fs'. apply Hfails.
    destruct (configure_spec dir fs w) as (r & w' & Hrun' & _ & Hres).
    rewrite Hrun in Hrun'. injection Hrun' as <- <-.
    destruct (current_is_default w); [|by destruct Hres].
    destruct (forallb known_format _).
    + destruct Hres as (_ & fmts & Hcur). unfold current_is_default. by rewrite Hcur.
    + by destruct Hres as (_ & f & _ & _ & ?).
  - destruct (reset_spec w) as [s' Hreset]. eexists. split; [exact Hreset|].
    split; [done|]. split; [done|].
    assert (Hok : ∀ dir fs, forallb known_format (default LOG_OUTPUT_FORMATS fs) = true →
              ∃ w2, configure dir fs
                      {| sys := s'; Logger_DEFAULT := Logger_DEFAULT w;
                         Logger_CURRENT := IsDefault |} = (Return tt, w2)).
    { intros dir fs Hknown.
      destruct (configure_spec dir fs {| sys := s'; Logger_DEFAULT := Logger_DEFAULT w;
                                         Logger_CURRENT := IsDefault |})
        as (r & w2 & Hrun & _ & Hres).
      simpl in Hres. rewrite Hknown in Hres. destruct Hres as [-> _]. by exists w2. }
    split.
    + intros dir. by apply Hok.
    + intros dir fs Hknown. by apply Hok.
Qed.

(** C6. The factory raises the unknown-format error for every name other
    than the four it knows, and a [configure] whose list holds such a name
    raises and leaves both [Logger.CURRENT] and the Logger objects as they
    were. *)
Theorem C6_unknown_format_fails_and_installs_nothing :
  (∀ format ev_dir s,
     known_format format = false →
     ∃ s', make_output_format format ev_dir s =
           (Raise (ValueError ("Unknown format specified: " ++ format)), s')) ∧
  (∀ dir format_strs w,
     (∃ f, f ∈ format_strs ∧ known_format f = false) →
     ∃ e w',
       configure dir (Some format_strs) w = (Raise e, w') ∧
       Logger_CURRENT w' = Logger_CURRENT w ∧
       Logger_DEFAULT w' = Logger_DEFAULT w ∧
       (current_is_default w = true →
          ∃ f, f ∈ format_strs ∧ known_format f = false ∧
               e = ValueError ("Unknown format specified: " ++ f))).
Proof.
  split.
  - intros format ev_dir s Hk.
    destruct (make_output_format_spec format ev_dir s) as (r & s' & -> & _ & Hr).
    rewrite Hk in Hr. subst r. by exists s'.
  - intros dir fs w (f & Hin & Hk).
    destruct (configure_spec dir (Some fs) w) as (r & w' & -> & Hdef & Hres).
    simpl in Hres.
    assert (Hall : forallb known_format fs = false).
    { apply not_true_is_false. intros Hall.
      rewrite forallb_forall in Hall. rewrite list_elem_of_In in Hin.
      specialize (Hall f Hin). congruence. }
    rewrite Hall in Hres.
    destruct (current_is_default w).
    + destruct Hres as (Hcur & f' & Hin' & Hk' & ->).
      eexists _, _. split; [done|]. split; [done|]. split; [done|].
      intros _. by exists f'.
    + destruct Hres as [-> ->]. eexists _, _. by repeat split.
Qed.

(** C10. A Logger is made with threshold INFO and an empty buffer, and so
    are the default Logger and the Logger a [configure] installs.  At
    threshold INFO a [log] call at INFO, WARN or ERROR runs [_do_log], that
    is one [writeseq] per sink, and a call at DEBUG does nothing; after
    [set_level(DEBUG)] a call at DEBUG runs [_do_log] too. *)
Theorem C10_new_logger_is_at_INFO_with_empty_buffer :
  (∀ dir fmts, level (Logger_init dir fmts) = INFO ∧ name2val (Logger_init dir fmts) = []) ∧
  (∀ env, let w := fresh_world env in
          current_logger w = Logger_DEFAULT w ∧
          level (current_logger w) = INFO ∧ name2val (current_logger w) = []) ∧
  (∀ dir format_strs w w',
     configure dir format_strs w = (Return tt, w') →
     level (current_logger w') = INFO ∧ name2val (current_logger w') = []) ∧
  (∀ L s args,
     level L = INFO →
     Logger_log args DEBUG (L, s) = (Return tt, (L, s)) ∧
     Logger_log args INFO (L, s) = _do_log args (L, s) ∧
     Logger_log args WARN (L, s) = _do_log args (L, s) ∧
     Logger_log args ERROR (L, s) = _do_log args (L, s) ∧
     ∃ L', Logger_set_level DEBUG (L, s) = (Return tt, (L', s)) ∧
           Logger_log args DEBUG (L', s) = _do_log args (L', s)).
Proof.
  split; [done|]. split; [done|]. split.
  - intros dir fs w w' Hrun.
    destruct (configure_spec dir fs w) as (r & w1 & Hrun' & _ & Hres).
    rewrite Hrun in Hrun'. injection Hrun' as <- <-.
    destruct (current_is_default w); [|by destruct Hres].
    destruct (forallb known_format _).
    + destruct Hres as (_ & fmts & Hcur). unfold current_logger. by rewrite Hcur.
    + by destruct Hres as (_ & f & _ & _ & ?).
  - intros L s args Hlvl.
    split; [apply Logger_log_suppresses; by rewrite Hlvl|].
    split; [apply Logger_log_forwards; by rewrite Hlvl|].
    split; [apply Logger_log_forwards; by rewrite Hlvl|].
    split; [apply Logger_log_forwards; by rewrite Hlvl|].
    eexists. split; [reflexivity|]. by apply Logger_log_forwards.
Qed.

(** C5, evaluated on the code.  On an empty mapping
    [HumanOutputFormat.writekvs] does not return: [max] raises ValueError
    on the empty sequence of key widths, before anything is written.  So
    does a [dumpkvs] of a Logger with that sink and an empty buffer. *)
Theorem C5_HumanOutputFormat_raises_on_empty_batch (file : nat) (s : Sys) :
  writekvs (HumanOutputFormat file, [], s) =
    (Raise (ValueError "max() arg is an empty sequence"),
     (HumanOutputFormat file, [], record_call (HumanOutputFormat file) [] s)) ∧
  files (record_call (HumanOutputFormat file) [] s) = files s ∧
  ∀ dir, Logger_dumpkvs (Logger_init dir [HumanOutputFormat file], s) =
    (Raise (ValueError "max() arg is an empty sequence"),
     (Logger_init dir [HumanOutputFormat file],
      record_call (HumanOutputFormat file) [] s)).
Proof. done. Qed.

(** *** The buffer between two dumps *)

Lemma last_write_absent (k : string) (calls : list (string * pyval)) :
  Forall (λ kv, kv.1 ≠ k) calls → last_write k calls = None.
Proof.
  induction 1 as [|[k1 v1] calls Hne _ IH]; [done|].
  rewrite last_write_cons, IH. simpl in Hne. by rewrite decide_False.
Qed.

Lemma coerce_idem (v : pyval) : coerce (coerce v) = coerce v.
Proof.
  destruct v as [z|x|t|a]; simpl; try done.
  destruct (np_tolist_float a) eqn:Ha; simpl; [done|by rewrite Ha].
Qed.

Lemma json_coerced_idem (kvs : dict pyval) :
  json_coerced (json_coerced kvs) = json_coerced kvs.
Proof.
  unfold json_coerced. rewrite <- list_fmap_compose. apply list_fmap_ext.
  intros i [k v] _. simpl. by rewrite coerce_idem.
Qed.

Lemma dict_get_json_coerced (k : string) (kvs : dict pyval) :
  dict_get k (json_coerced kvs) = coerce <$> dict_get k kvs.
Proof.
  induction kvs as [|[k0 v0] kvs IH]; [done|].
  unfold json_coerced in *. rewrite fmap_cons. simpl.
  by destruct (decide (k = k0)).
Qed.

(** what each sink of the fan-out is handed: the buffer itself up to and
    including the first JSON sink, the converted buffer after it *)
Lemma dump_calls_lookup (fmts : list OutputFormat) (kvs : dict pyval) (i : nat)
    (fmt : OutputFormat) (b : dict pyval) :
  dump_calls fmts kvs !! i = Some (fmt, b) →
  fmts !! i = Some fmt ∧ b = handed fmts kvs i.
Proof.
  unfold handed. revert kvs i. induction fmts as [|f rest IH]; intros kvs i; [done|].
  destruct i as [|i]; cbn [dump_calls lookup list_lookup take existsb].
  - by intros [= <- <-].
  - intros Hi. destruct (IH _ _ Hi) as [Hfmt ->]. split; [done|].
    destruct f; cbn [left_by is_JSON orb]; try done.
    rewrite json_coerced_idem. by destruct (existsb is_JSON (take i rest)).
Qed.

(** C4, as the code has it.  After any sequence of [logkv] calls the buffer
    holds, for every key of the sequence, the value of the last call with
    that key (and for any other key what it held before), and its keys stay
    distinct.  The next [dumpkvs] is the fan-out of this buffer: each sink is
    handed the buffer as the sinks before it left it, the first sink always
    and exactly this buffer; a sink with no JSON sink before it is handed
    exactly the last values, and a sink after a JSON sink is handed them
    with every value that has a dtype replaced by its float. *)
Theorem C4_last_logkv_per_key_reaches_the_dump
    (L : Logger) (s : Sys) (logged : list (string * pyval)) :
  dict_wf (name2val L) →
  ∃ L',
    for_each (λ kv, Logger_logkv kv.1 kv.2) logged (L, s) = (Return tt, (L', s)) ∧
    level L' = level L ∧ output_formats L' = output_formats L ∧
    dict_wf (name2val L') ∧
    (∀ k, dict_get k (name2val L') =
          match last_write k logged with
          | Some v => Some v
          | None => dict_get k (name2val L)
          end) ∧
    (level L ≠ DISABLED →
     ∃ calls r fmts' kvs' s',
       fan_out (output_formats L) (name2val L') s calls r fmts' kvs' s' ∧
       Logger_dumpkvs (L', s) =
         (r, (match r with
              | Return _ => dumped fmts' L'
              | Raise _ => interrupted fmts' kvs' L'
              end, s')) ∧
       (∀ fmt rest, output_formats L = fmt :: rest →
          calls !! 0%nat = Some (fmt, name2val L')) ∧
       (∀ i fmt kvs, calls !! i = Some (fmt, kvs) →
          output_formats L !! i = Some fmt ∧
          kvs = handed (output_formats L) (name2val L') i ∧
          ∀ k, dict_get k kvs =
               (if existsb is_JSON (take i (output_formats L)) then coerce else id)
                 <$> dict_get k (name2val L'))).
Proof.
  intros Hwf. rewrite Logger_logkv_sequence. eexists. split; [reflexivity|].
  split; [done|]. split; [done|].
  set (buffer := foldl (λ d kv, dict_set kv.1 kv.2 d) (name2val L) logged).
  assert (Hwf' : dict_wf buffer) by (by apply logkv_sequence_wf).
  split; [done|]. split; [intros k; apply logkv_sequence_get|].
  intros Hlvl.
  destruct (dump_loop_fan_out (output_formats L) buffer s)
    as (calls & r & fmts' & kvs' & s' & Hloop & Hfan).
  exists calls, r, fmts', kvs', s'. split; [exact Hfan|].
  destruct (fan_out_calls _ _ _ _ _ _ _ _ Hfan Hwf') as (Hcalls & _ & _ & _).
  split; [|split].
  - cbn [Logger_dumpkvs set_name2val level output_formats name2val].
    rewrite decide_False by done. rewrite Hloop. by destruct r as [[]|e].
  - intros fmt rest Hfmts. rewrite Hcalls, Hfmts. by cbn [reached dump_calls take].
  - intros i fmt kvs Hi. rewrite Hcalls in Hi.
    apply lookup_take_Some in Hi as [Hi _].
    destruct (dump_calls_lookup _ _ _ _ _ Hi) as [Hfmt ->].
    split; [done|]. split; [done|]. intros k. unfold handed.
    destruct (existsb is_JSON (take i (output_formats L))).
    + apply dict_get_json_coerced.
    + cbn [name2val set_name2val]. by destruct (dict_get k buffer).
Qed.

(** *** The free functions on the buffer *)

Lemma current_put_current (L : Logger) (s : Sys) (w : World) :
  current_logger (put_current L s w) = L.
Proof. unfold current_logger, put_current. by destruct (Logger_CURRENT w). Qed.

Lemma put_current_twice (L1 L2 : Logger) (s1 s2 : Sys) (w : World) :
  put_current L2 s2 (put_current L1 s1 w) = put_current L2 s2 w.
Proof. unfold put_current. by destruct (Logger_CURRENT w). Qed.

Lemma logkv_spec (key : string) (val : pyval) (w : World) :
  logkv key val w =
  (Return tt,
   put_current (set_name2val (dict_set key val (name2val (current_logger w)))
                             (current_logger w)) (sys w) w).
Proof. done. Qed.

Lemma logkvs_spec (d : dict pyval) (w : World) :
  logkvs d w =
  (Return tt,
   put_current (set_name2val (foldl (λ b kv, dict_set kv.1 kv.2 b)
                                    (name2val (current_logger w)) d)
                             (current_logger w)) (sys w) w).
Proof.
  unfold logkvs. revert w. induction d as [|[k v] d IH]; intros w.
  - simpl. unfold ret. f_equal. unfold put_current, current_logger.
    destruct w as [s D [|L]]; simpl; f_equal; [by destruct D|by destruct L].
  - cbn [for_each foldl fst snd]. unfold bind. rewrite logkv_spec, IH.
    rewrite current_put_current, put_current_twice. f_equal.
    unfold put_current. by destruct (Logger_CURRENT w).
Qed.

(** C8. What [getkvs] shows for a key is exactly the value the last
    [logkv] gave it, whatever its type: after [logkv(key, val)], followed by
    any [logkv] calls on other keys, the buffer read through [getkvs] holds
    [val] itself at [key], a value with a dtype included. *)
Theorem C8_getkvs_reads_back_what_logkv_wrote
    (w : World) (key : string) (val : pyval) (others : dict pyval) :
  Forall (λ kv, kv.1 ≠ key) others →
  ∃ w' buffer,
    (logkv key val ;;; logkvs others) w = (Return tt, w') ∧
    getkvs w' = (Return buffer, w') ∧
    dict_get key buffer = Some val.
Proof.
  intros Hothers. unfold bind. rewrite logkv_spec, logkvs_spec.
  eexists _, _. split; [reflexivity|]. split; [reflexivity|].
  rewrite !current_put_current. simpl.
  rewrite logkv_sequence_get, last_write_absent by done.
  rewrite dict_get_set. by rewrite decide_True.
Qed.

(** *** The record and the mapping of JSONOutputFormat.writekvs *)

Lemma json_members_spec (d : dict pyval) (xs : list string) :
  json_members d = Return xs →
  length xs = length d ∧
  ∀ i k v, d !! i = Some (k, v) →
    ∃ x, json_value v = Return x ∧ xs !! i = Some (json_str k ++ ": " ++ x).
Proof.
  revert xs. induction d as [|[k0 v0] d IH]; intros xs; simpl.
  - intros [= <-]. split; [done|]. intros i k v Hi. by destruct i.
  - destruct (json_value v0) as [x0|e] eqn:Hv0; [|done].
    destruct (json_members d) as [xs0|e]; [|done].
    intros [= <-]. destruct (IH xs0 eq_refl) as [Hlen Hnth].
    split; [simpl; by rewrite Hlen|].
    intros [|i] k v Hi; simpl in *.
    + injection Hi as -> ->. by exists x0.
    + by apply Hnth.
Qed.

Lemma coerce_convertible (v : pyval) :
  convertible v = true → has_dtype (coerce v) = false.
Proof. destruct v as [z|x|t|a]; simpl; try done. by destruct (np_tolist_float a). Qed.

(** C7, as the code has it.  A call of [JSONOutputFormat.writekvs] in which
    every value with a dtype converts writes one line to its file and
    flushes it: an object with one member per entry of the mapping, in the
    order of the mapping (the order in which the keys were first logged, not
    the sorted order the loop before it visits them in), the i-th member
    made of the i-th key and the i-th value after conversion. *)
Theorem C7_JSON_record_follows_the_mapping_order
    (file : nat) (kvs : dict pyval) (s : Sys) (f : File) :
  dict_wf kvs →
  forallb (λ kv, convertible kv.2) kvs = true →
  files s !! file = Some f →
  ∃ members s',
    JSON_writekvs file (kvs, s) = (Return tt, (json_coerced kvs, s')) ∧
    length members = length kvs ∧
    (∀ i k v, kvs !! i = Some (k, v) →
       has_dtype (coerce v) = false ∧
       ∃ x, json_value (coerce v) = Return x ∧
            members !! i = Some (json_str k ++ ": " ++ x)) ∧
    files s' !! file =
      Some {| f_name := f_name f; f_pending := "";
              f_flushed := f_flushed f ++ f_pending f
                           ++ ("{" ++ String.concat ", " members ++ "}") ++ nl |} ∧
    (∀ j, j ≠ file → files s' !! j = files s !! j).
Proof.
  intros Hwf Hall Hfile.
  destruct (JSON_writekvs_spec file kvs s Hwf) as (r & kvs' & s' & Hrun & _ & _ & Hres).
  rewrite Hall in Hres. destruct Hres as (text & Hdumps & -> & -> & ->).
  unfold json_dumps in Hdumps.
  destruct (json_members (json_coerced kvs)) as [members|e] eqn:Hmem; [|done].
  injection Hdumps as <-.
  destruct (json_members_spec _ _ Hmem) as [Hlen Hnth].
  exists members. eexists. split; [exact Hrun|].
  split; [unfold json_coerced in Hlen; by rewrite Hlen, length_fmap|]. split; [|split].
  - intros i k v Hi. split.
    + apply coerce_convertible.
      rewrite forallb_forall in Hall. apply list_elem_of_lookup_2, list_elem_of_In in Hi.
      by apply (Hall (k, v)).
    + apply Hnth. unfold json_coerced. by rewrite list_lookup_fmap, Hi.
  - simpl. by rewrite !list_lookup_alter_eq, Hfile.
  - intros j Hj. simpl. by rewrite !list_lookup_alter_ne.
Qed.

(** C9. A call of [JSONOutputFormat.writekvs] that returns has changed the
    mapping it was given: every entry whose value had a dtype now holds, at
    the same place and under the same key, the float that value converts
    to, and the other entries are as they were.  The mapping is the
    Logger's buffer, so in a [dumpkvs] the sink after a JSON sink receives
    the converted buffer. *)
Theorem C9_JSON_writekvs_converts_the_callers_mapping
    (file : nat) (kvs : dict pyval) (s : Sys) :
  dict_wf kvs →
  (∀ kvs' s',
     JSON_writekvs file (kvs, s) = (Return tt, (kvs', s')) →
     kvs' = json_coerced kvs ∧
     dict_keys kvs' = dict_keys kvs ∧
     (∀ i k a, kvs !! i = Some (k, VNp a) →
        ∃ x, np_tolist_float a = Return x ∧ kvs' !! i = Some (k, VFloat x)) ∧
     (∀ i k v, kvs !! i = Some (k, v) → has_dtype v = false →
        kvs' !! i = Some (k, v)) ∧
     ((∃ k a, (k, VNp a) ∈ kvs) → kvs' ≠ kvs)) ∧
  (∀ L fmt rest,
     name2val L = kvs → level L ≠ DISABLED →
     output_formats L = JSONOutputFormat file :: fmt :: rest →
     forallb (λ kv, convertible kv.2) kvs = true →
     ∃ r L' s' more,
       Logger_dumpkvs (L, s) = (r, (L', s')) ∧
       kv_calls s' = (kv_calls s ++ (JSONOutputFormat file, kvs)
                        :: (fmt, json_coerced kvs) :: more)%list).
Proof.
  intros Hwf. split.
  - intros kvs' s' Hrun.
    destruct (JSON_writekvs_spec file kvs s Hwf) as (r & kvs1 & s1 & Hrun' & Hkeys & _ & Hres).
    rewrite Hrun in Hrun'. injection Hrun' as <- <- <-.
    destruct (forallb _ kvs) eqn:Hall; [|by destruct Hres as [[e ?] _]].
    destruct Hres as (text & _ & _ & -> & _).
    split; [done|]. split; [done|].
    assert (Hconv : ∀ i k a, kvs !! i = Some (k, VNp a) →
              ∃ x, np_tolist_float a = Return x ∧
                   json_coerced kvs !! i = Some (k, VFloat x)).
    { intros i k a Hi. unfold json_coerced. rewrite list_lookup_fmap, Hi. simpl.
      rewrite forallb_forall in Hall.
      pose proof Hi as Hin. apply list_elem_of_lookup_2, list_elem_of_In in Hin.
      specialize (Hall _ Hin). simpl in Hall.
      destruct (np_tolist_float a) as [x|e]; [by exists x|done]. }
    split; [done|]. split.
    + intros i k v Hi Hv. unfold json_coerced. rewrite list_lookup_fmap, Hi. simpl.
      by destruct v.
    + intros (k & a & Hin) Heq. apply list_elem_of_lookup_1 in Hin as [i Hi].
      destruct (Hconv i k a Hi) as (x & _ & Hi'). rewrite Heq in Hi'. congruence.
  - intros L fmt rest Hbuf Hlvl Hfmts Hall.
    cbn [Logger_dumpkvs]. rewrite decide_False by done.
    rewrite <- Hbuf in Hwf.
    destruct (dump_loop_spec (output_formats L) (name2val L) s Hwf)
      as (r & fmts' & kvs' & s' & -> & Hcalls & _ & _).
    rewrite Hfmts, Hbuf in Hcalls. cbn [reached dump_calls accepts left_by] in Hcalls.
    rewrite Hall in Hcalls. cbn [take] in Hcalls.
    destruct r as [[]|e]; eexists _, _, _, _; (split; [reflexivity|]); exact Hcalls.
Qed.

(** *** Lengths of texts *)

Lemma str_length_app (s t : string) :
  String.length (s ++ t) = (String.length s + String.length t)%nat.
Proof. induction s as [|c s IH]; simpl; [done|]. by rewrite IH. Qed.

Lemma str_length_mul (s : string) (n : nat) :
  String.length (str_mul s n) = (n * String.length s)%nat.
Proof. induction n as [|n IH]; simpl; [done|]. by rewrite str_length_app, IH. Qed.

Lemma str_length_prefix (n : nat) (s : string) :
  String.length (substring 0 n s) = Nat.min n (String.length s).
Proof.
  revert s. induction n as [|n IH]; intros [|c s]; simpl; try done.
  by rewrite IH.
Qed.

Lemma str_prefix_all (n : nat) (s : string) :
  (String.length s ≤ n)%nat → substring 0 n s = s.
Proof.
  revert s. induction n as [|n IH]; intros [|c s]; simpl; try done; [lia|].
  intros Hle. rewrite IH; [done|lia].
Qed.

(** X1. [_truncate] never gives more than 23 characters: a text of at most
    23 characters is returned as it is, a longer one becomes its first 20
    characters followed by three dots, 23 characters in all; truncating
    twice is truncating once. *)
Theorem truncate_at_most_23_characters (s : string) :
  (String.length (_truncate s) ≤ 23)%nat ∧
  ((String.length s ≤ 23)%nat → _truncate s = s) ∧
  ((23 < String.length s)%nat →
     _truncate s = substring 0 20 s ++ "..." ∧ String.length (_truncate s) = 23%nat) ∧
  _truncate (_truncate s) = _truncate s.
Proof.
  assert (Hlong : (23 < String.length s)%nat →
            _truncate s = substring 0 20 s ++ "..." ∧ String.length (_truncate s) = 23%nat).
  { intros Hlen. unfold _truncate.
    destruct (Nat.ltb_spec 23 (String.length s)) as [_|?]; [|lia].
    split; [done|]. rewrite str_length_app, str_length_prefix.
    change (String.length "...") with 3%nat. lia. }
  assert (Hshort : (String.length s ≤ 23)%nat → _truncate s = s).
  { intros Hlen. unfold _truncate.
    destruct (Nat.ltb_spec 23 (String.length s)) as [?|_]; [lia|done]. }
  assert (Hbound : (String.length (_truncate s) ≤ 23)%nat).
  { destruct (decide (String.length s ≤ 23)%nat) as [Hle|Hgt].
    - by rewrite Hshort.
    - destruct Hlong as [_ Hlen]; [lia|]. by rewrite Hlen. }
  split; [done|]. split; [done|]. split; [done|].
  unfold _truncate at 1.
  destruct (Nat.ltb_spec 23 (String.length (_truncate s))) as [?|_]; [lia|done].
Qed.

Lemma truncate_length_le (s : string) : (String.length (_truncate s) ≤ 23)%nat.
Proof.
  unfold _truncate. destruct (Nat.ltb_spec 23 (String.length s)) as [Hlt|Hle]; [|done].
  rewrite str_length_app, str_length_prefix.
  change (String.length "...") with 3%nat. lia.
Qed.

(** *** The table of HumanOutputFormat.writekvs *)

Lemma foldl_max_spec (xs : list nat) (a : nat) :
  (a ≤ foldl Nat.max a xs)%nat ∧
  Forall (λ x, (x ≤ foldl Nat.max a xs)%nat) xs ∧
  foldl Nat.max a xs ∈ a :: xs.
Proof.
  revert a. induction xs as [|x xs IH]; intros a; simpl.
  - split; [done|]. split; [done|]. by left.
  - destruct (IH (Nat.max a x)) as (Hge & Hall & Hin).
    split; [lia|]. split; [constructor; [lia|done]|].
    apply elem_of_cons in Hin as [Heq|Hin].
    + rewrite Heq. destruct (Nat.max_spec a x) as [[_ ->]|[_ ->]]; [right; left|left].
    + by right; right.
Qed.

Lemma py_max_returns (xs : list nat) :
  xs ≠ [] →
  ∃ m, py_max xs = Return m ∧ Forall (λ x, (x ≤ m)%nat) xs ∧ m ∈ xs.
Proof.
  destruct xs as [|x xs]; [done|]. intros _. simpl.
  destruct (foldl_max_spec xs x) as (Hge & Hall & Hin).
  eexists. split; [done|]. split; [by constructor|done].
Qed.

Lemma dict_set_Forall {V} (P : string * V → Prop) (k : string) (v : V) (d : dict V) :
  Forall P d → P (k, v) → Forall P (dict_set k v d).
Proof.
  intros Hd Hkv. induction Hd as [|[k0 v0] d H0 Hd IH]; simpl.
  - by constructor.
  - destruct (decide (k = k0)) as [->|]; by constructor.
Qed.

Lemma dict_set_keys {V} (x k : string) (v : V) (d : dict V) :
  x ∈ dict_keys (dict_set k v d) ↔ x = k ∨ x ∈ dict_keys d.
Proof.
  unfold dict_keys. induction d as [|[k0 v0] d IH]; simpl.
  - rewrite list_elem_of_singleton, elem_of_nil. tauto.
  - destruct (decide (k = k0)) as [->|Hne]; simpl.
    + rewrite elem_of_cons. tauto.
    + rewrite !elem_of_cons, IH. tauto.
Qed.

Lemma dict_set_length {V} (k : string) (v : V) (d : dict V) :
  (length (dict_set k v d) ≤ S (length d))%nat.
Proof.
  induction d as [|[k0 v0] d IH]; simpl; [done|].
  destruct (decide (k = k0)); simpl; lia.
Qed.

(** what the first loop of [HumanOutputFormat.writekvs] builds from a list
    of items, starting from [acc] *)
Lemma key2str_fold (items : list (string * pyval)) (acc : dict string) :
  let step := λ (key2str : dict string) '(key, val),
                dict_set (_truncate key) (_truncate (valstr val)) key2str in
  (dict_wf acc → dict_wf (foldl step acc items)) ∧
  (∀ x, x ∈ dict_keys (foldl step acc items) ↔
        x ∈ dict_keys acc ∨ x ∈ _truncate <$> items.*1) ∧
  (∀ P : string * string → Prop,
     Forall P acc →
     (∀ kv, kv ∈ items → P (_truncate kv.1, _truncate (valstr kv.2))) →
     Forall P (foldl step acc items)) ∧
  (length (foldl step acc items) ≤ length acc + length items)%nat.
Proof.
  intros step. revert acc. induction items as [|[k v] items IH]; intros acc.
  - simpl. split; [done|]. split; [|split; [done|lia]].
    intros x. rewrite elem_of_nil. tauto.
  - cbn [foldl]. destruct (IH (step acc (k, v))) as (Hwf & Hkeys & Hall & Hlen).
    split; [|split; [|split]].
    + intros Hacc. apply Hwf. by apply dict_set_wf.
    + intros x. rewrite Hkeys. unfold step at 1. rewrite dict_set_keys.
      rewrite !fmap_cons, elem_of_cons. simpl. tauto.
    + intros P Hacc Hitems. apply Hall.
      * apply dict_set_Forall; [done|]. apply (Hitems (k, v)). by left.
      * intros kv Hin. apply Hitems. by right.
    + pose proof (dict_set_length (_truncate k) (_truncate (valstr v)) acc) as Hone.
      change (length (step acc (k, v)))
        with (length (dict_set (_truncate k) (_truncate (valstr v)) acc)) in Hlen.
      cbn [length]. lia.
Qed.

Lemma table_row_length (keywidth valwidth : nat) (kv : string * string) :
  (String.length kv.1 ≤ keywidth)%nat → (String.length kv.2 ≤ valwidth)%nat →
  String.length (table_row keywidth valwidth kv) = (keywidth + valwidth + 7)%nat.
Proof.
  intros Hk Hv. unfold table_row.
  rewrite !str_length_app, !str_length_mul. simpl. lia.
Qed.

(** X2. On a mapping that is not empty [HumanOutputFormat.writekvs] writes
    one text and flushes: a line of dashes, one row per entry of [key2str],
    and the line of dashes again, each followed by a newline.  Every line
    has the same width, [keywidth + valwidth + 7], neither width is above
    23, and there is at least one row and at most one per entry of the
    mapping. *)
Theorem Human_table_lines_have_one_width (file : nat) (kvs : dict pyval) (s : Sys) :
  kvs ≠ [] →
  ∃ keywidth valwidth rows,
    let dashes := str_mul "-" (keywidth + valwidth + 7) in
    Human_writekvs file kvs s =
      (Return tt,
       set_files (alter File_flush file)
         (set_files
            (alter (File_write (String.concat nl ([dashes] ++ rows ++ [dashes])%list ++ nl))
                   file) s)) ∧
    Forall (λ line, String.length line = (keywidth + valwidth + 7)%nat)
           ([dashes] ++ rows ++ [dashes])%list ∧
    (keywidth ≤ 23)%nat ∧ (valwidth ≤ 23)%nat ∧
    (1 ≤ length rows ≤ length kvs)%nat.
Proof.
  intros Hne.
  pose proof (key2str_nonempty kvs Hne) as Hk2s.
  destruct (key2str_fold (sorted_items kvs) []) as (_ & _ & Hall & Hlen).
  fold (key2str_of kvs) in Hall, Hlen.
  assert (Hshape : Forall (λ kv : string * string,
                      (String.length kv.1 ≤ 23)%nat ∧ (String.length kv.2 ≤ 23)%nat)
                     (key2str_of kvs)).
  { apply Hall; [done|]. intros kv _. split; apply truncate_length_le. }
  destruct (py_max_returns (String.length <$> dict_keys (key2str_of kvs)))
    as (kw & Hkw & Hkw_all & Hkw_in).
  { unfold dict_keys. by destruct (key2str_of kvs). }
  destruct (py_max_returns (String.length <$> dict_values (key2str_of kvs)))
    as (vw & Hvw & Hvw_all & Hvw_in).
  { unfold dict_values. by destruct (key2str_of kvs). }
  exists kw, vw, (table_row kw vw <$> sorted_items (key2str_of kvs)).
  cbn zeta. split; [|split; [|split; [|split]]].
  - unfold Human_writekvs, bind, lift_outcome. by rewrite Hkw, Hvw.
  - assert (Hdash : String.length (str_mul "-" (kw + vw + 7)) = (kw + vw + 7)%nat).
    { rewrite str_length_mul. simpl. lia. }
    apply Forall_app. split; [by constructor|]. apply Forall_app. split; [|by constructor].
    apply Forall_fmap, list.Forall_forall. intros kv Hin. simpl.
    rewrite sorted_items_Permutation in Hin.
    apply table_row_length.
    + rewrite list.Forall_forall in Hkw_all. apply Hkw_all.
      unfold dict_keys. rewrite <- list_fmap_compose.
      by apply (list_elem_of_fmap_2 (String.length ∘ fst)).
    + rewrite list.Forall_forall in Hvw_all. apply Hvw_all.
      unfold dict_values. rewrite <- list_fmap_compose.
      by apply (list_elem_of_fmap_2 (String.length ∘ snd)).
  - unfold dict_keys in Hkw_in. rewrite <- list_fmap_compose in Hkw_in.
    apply list_elem_of_fmap in Hkw_in as (kv & -> & Hin).
    rewrite list.Forall_forall in Hshape. by apply Hshape.
  - unfold dict_values in Hvw_in. rewrite <- list_fmap_compose in Hvw_in.
    apply list_elem_of_fmap in Hvw_in as (kv & -> & Hin).
    rewrite list.Forall_forall in Hshape. by apply Hshape.
  - rewrite length_fmap, (Permutation_length (sorted_items_Permutation _)).
    rewrite (Permutation_length (sorted_items_Permutation kvs)) in Hlen.
    split; [|simpl in Hlen; lia].
    destruct (key2str_of kvs); [done|simpl; lia].
Qed.


(** *** writeseq and log *)

Lemma str_app_cons (x : ascii) (a b : string) : String x a ++ b = String x (a ++ b).
Proof. reflexivity. Qed.

Lemma str_app_assoc (a b c : string) : (a ++ b) ++ c = a ++ b ++ c.
Proof. induction a as [|x a IH]; [done|]. by rewrite !str_app_cons, IH. Qed.

Lemma str_app_empty (a : string) : a ++ "" = a.
Proof. induction a as [|x a IH]; [done|]. by rewrite str_app_cons, IH. Qed.

Lemma concat_empty_cons (a : string) (args : list string) :
  String.concat "" (a :: args) = a ++ String.concat "" args.
Proof. destruct args; simpl; [by rewrite str_app_empty|done]. Qed.

Lemma File_write_twice (a b : string) (f : File) :
  File_write b (File_write a f) = File_write (a ++ b) f.
Proof.
  unfold File_write. cbn [f_name f_pending f_flushed]. by rewrite str_app_assoc.
Qed.

Lemma set_files_twice (g1 g2 : list File → list File) (s : Sys) :
  set_files g2 (set_files g1 s) = set_files (g2 ∘ g1) s.
Proof. done. Qed.

Lemma set_files_ext (g1 g2 : list File → list File) (s : Sys) :
  g1 (files s) = g2 (files s) → set_files g1 s = set_files g2 s.
Proof. unfold set_files. by intros ->. Qed.

Lemma for_each_file_write (file : nat) (args : list string) (s : Sys) :
  for_each (file_write file) args s =
  (Return tt, set_files (alter (File_write (String.concat "" args)) file) s).
Proof.
  revert s. induction args as [|a args IH]; intros s.
  - simpl. unfold ret. f_equal. destruct s as [fs ws ds c e k]. unfold set_files. simpl.
    f_equal. symmetry. apply list_alter_id. intros [n p fl].
    unfold File_write. simpl. by rewrite str_app_empty.
  - cbn [for_each]. unfold bind, file_write at 1, modify. rewrite IH.
    f_equal. rewrite set_files_twice. apply set_files_ext. unfold compose.
    rewrite list_alter_alter_eq. apply list_alter_ext; [|done].
    intros f _. unfold compose. by rewrite File_write_twice, concat_empty_cons.
Qed.

(** all the writes of [HumanOutputFormat.writeseq] in one step *)
Lemma Human_writeseq_alter (file : nat) (args : list string) (s : Sys) :
  Human_writeseq file args s =
  (Return tt, set_files (alter (line_written args) file) s).
Proof.
  unfold Human_writeseq, bind. rewrite for_each_file_write.
  unfold file_write, file_flush, modify. f_equal.
  rewrite !set_files_twice. apply set_files_ext. unfold compose.
  rewrite !list_alter_alter_eq. apply list_alter_ext; [|done].
  intros f _. unfold line_written, compose. by rewrite File_write_twice.
Qed.

(** X4. [HumanOutputFormat.writeseq(args)] adds to its stream the texts of
    [args] one after the other with nothing between them, then a newline,
    and flushes: whatever was pending is flushed with them.  No other stream
    and nothing else in the store changes. *)
Theorem Human_writeseq_appends_one_flushed_line
    (file : nat) (args : list string) (s : Sys) (f : File) :
  files s !! file = Some f →
  ∃ s',
    writeseq (HumanOutputFormat file) args s = (Return tt, s') ∧
    files s' !! file =
      Some {| f_name := f_name f; f_pending := "";
              f_flushed := f_flushed f ++ f_pending f ++ String.concat "" args ++ nl |} ∧
    (∀ j, j ≠ file → files s' !! j = files s !! j) ∧
    only_files_changed s s'.
Proof.
  intros Hfile. simpl. rewrite Human_writeseq_alter. eexists. split; [reflexivity|].
  split; [|split].
  - simpl. by rewrite list_lookup_alter_eq, Hfile.
  - intros j Hj. simpl. by rewrite list_lookup_alter_ne.
  - unfold only_files_changed. simpl. by rewrite length_alter.
Qed.

Lemma only_files_changed_refl (s : Sys) : only_files_changed s s.
Proof. by unfold only_files_changed. Qed.

Lemma only_files_changed_trans (s1 s2 s3 : Sys) :
  only_files_changed s1 s2 → only_files_changed s2 s3 → only_files_changed s1 s3.
Proof. unfold only_files_changed. intros (?&?&?&?&?&?) (?&?&?&?&?&?). repeat split; congruence. Qed.

Lemma writeseq_frame (fmt : OutputFormat) (args : list string) (s : Sys) :
  ∃ s', writeseq fmt args s = (Return tt, s') ∧
        only_files_changed s s' ∧
        ∀ j, fmt ≠ HumanOutputFormat j → files s' !! j = files s !! j.
Proof.
  destruct fmt as [|file|file|dir step writer]; simpl;
    try (exists s; split; [done|]; split; [apply only_files_changed_refl|done]).
  rewrite Human_writeseq_alter. eexists. split; [reflexivity|]. split.
  - unfold only_files_changed. simpl. by rewrite length_alter.
  - intros j Hj. simpl. rewrite list_lookup_alter_ne; [done|congruence].
Qed.

Lemma _do_log_frame (args : list string) (L : Logger) (s : Sys) :
  ∃ s', _do_log args (L, s) = (Return tt, (L, s')) ∧
        only_files_changed s s' ∧
        ∀ j, HumanOutputFormat j ∉ output_formats L → files s' !! j = files s !! j.
Proof.
  unfold _do_log, bind, gets, zoom_snd. simpl.
  assert (Hall : ∃ s', for_each (λ fmt, writeseq fmt args) (output_formats L) s = (Return tt, s')
            ∧ only_files_changed s s'
            ∧ ∀ j, HumanOutputFormat j ∉ output_formats L → files s' !! j = files s !! j).
  { revert s. induction (output_formats L) as [|fmt fmts IH]; intros s.
    - exists s. split; [done|]. split; [apply only_files_changed_refl|done].
    - cbn [for_each]. unfold bind.
      destruct (writeseq_frame fmt args s) as (s1 & -> & Hch1 & Hfr1).
      destruct (IH s1) as (s' & -> & Hch & Hfr).
      exists s'. split; [done|]. split; [by eapply only_files_changed_trans|].
      intros j Hj. apply not_elem_of_cons in Hj as [Hne Hj].
      rewrite Hfr by done. apply Hfr1. congruence. }
  destruct Hall as (s' & -> & Hch & Hfr). by exists s'.
Qed.

Lemma Logger_log_frame
    (args : list string) (lvl : Z) (L : Logger) (s : Sys) :
  ∃ s',
    Logger_log args lvl (L, s) = (Return tt, (L, s')) ∧
    only_files_changed s s' ∧
    (∀ j, HumanOutputFormat j ∉ output_formats L → files s' !! j = files s !! j) ∧
    (lvl < level L → s' = s).
Proof.
  destruct (decide (level L ≤ lvl)) as [Hle|Hgt].
  - rewrite Logger_log_forwards by done.
    destruct (_do_log_frame args L s) as (s' & Hrun & Hch & Hfr).
    exists s'. split; [done|]. split; [done|]. split; [done|]. lia.
  - rewrite Logger_log_suppresses by lia. exists s.
    split; [done|]. split; [apply only_files_changed_refl|done].
Qed.

(** X5. A [log] call returns, leaves the Logger as it is, and changes
    nothing in the store but the contents of the streams of the Logger's
    [HumanOutputFormat] sinks: the JSON file, the event writers and every
    other stream are untouched.  Below the threshold the call changes
    nothing at all. *)
Theorem log_changes_only_the_streams_of_Human_sinks
    (args : list string) (lvl : Z) (L : Logger) (s : Sys) :
  ∃ s',
    Logger_log args lvl (L, s) = (Return tt, (L, s')) ∧
    only_files_changed s s' ∧
    (∀ j, HumanOutputFormat j ∉ output_formats L → files s' !! j = files s !! j) ∧
    (lvl < level L → s' = s).
Proof.
  destruct (decide (level L ≤ lvl)) as [Hle|Hgt].
  - rewrite Logger_log_forwards by done.
    destruct (_do_log_frame args L s) as (s' & Hrun & Hch & Hfr).
    exists s'. split; [done|]. split; [done|]. split; [done|]. lia.
  - rewrite Logger_log_suppresses by lia. exists s.
    split; [done|]. split; [apply only_files_changed_refl|done].
Qed.

(** *** TensorBoardOutputFormat *)

Lemma summary_vals_values (kvs : dict pyval) (s : Sys) (values : dict pyfloat) :
  comprehension summary_val kvs s = (Return values, s) →
  Forall2 (λ kv x, x.1 = kv.1 ∧ py_float kv.2 = Return x.2) kvs values.
Proof.
  revert values. induction kvs as [|[k v] kvs IH]; intros values.
  - intros [= <-]. constructor.
  - cbn [comprehension]. unfold bind at 1.
    assert (Hhead : summary_val (k, v) s =
                    match py_float v with
                    | Return x => (Return (k, x), s)
                    | Raise e => (Raise e, s)
                    end).
    { unfold summary_val, bind, lift_outcome. simpl. by destruct (py_float v). }
    rewrite Hhead. destruct (py_float v) as [x|e] eqn:Hv; [|done].
    unfold bind. destruct (summary_vals_spec kvs s) as (r & Hr & _). rewrite Hr.
    destruct r as [rest|e]; [|done]. intros [= <-].
    constructor; [done|]. by apply IH.
Qed.

Lemma TensorBoard_writekvs_run
    (dir : string) (step : Z) (writer : option nat) (kvs : dict pyval) (s : Sys) :
  ∃ r fmt' s',
    writekvs (TensorBoardOutputFormat dir step writer, kvs, s) = (r, (fmt', kvs, s')) ∧
    files s' = files s ∧
    match r with
    | Return _ =>
        ∃ wr values,
          writer = Some wr ∧
          fmt' = TensorBoardOutputFormat dir (step + 1) writer ∧
          Forall2 (λ kv x, x.1 = kv.1 ∧ py_float kv.2 = Return x.2) kvs values ∧
          writers s' =
            alter (λ w, Flush (WriteEvent {| wall_time := time_time (clock s);
                                             summary := values; ev_step := step |} w))
                  wr (writers s)
    | Raise _ =>
        fmt' = TensorBoardOutputFormat dir step writer ∧ writers s' = writers s
    end.
Proof.
  cbn [writekvs]. unfold TensorBoard_writekvs, bind.
  set (s1 := record_call _ kvs s).
  destruct (summary_vals_spec kvs s1) as (r & Hr & _). rewrite Hr.
  destruct r as [values|e].
  - apply summary_vals_values in Hr. unfold read_clock. cbn iota beta.
    destruct writer as [wr|].
    + eexists _, _, _. split; [reflexivity|]. split; [done|].
      exists wr, values. split; [done|]. split; [done|]. split; [done|].
      simpl. by rewrite list_alter_alter_eq.
    + eexists _, _, _. split; [reflexivity|]. by split.
  - eexists _, _, _. split; [reflexivity|]. by split.
Qed.

(** X6. A [TensorBoardOutputFormat.writekvs] call that returns has appended
    exactly one event to its writer and flushed it: the event carries the
    step the sink had before the call, the clock reading, and one value per
    entry of the mapping, in the order of the mapping, each the [float] of
    the entry's value; the sink's step is then one more.  A call that raises
    leaves the sink's step and every writer as they were, so no partial
    event is written.  In both cases the mapping and the text streams are
    untouched.  A sink is made with step 1. *)
Theorem TensorBoard_step_counts_the_events_written
    (dir : string) (step : Z) (writer : option nat) (kvs : dict pyval) (s : Sys) :
  (∃ r fmt' s',
     writekvs (TensorBoardOutputFormat dir step writer, kvs, s) = (r, (fmt', kvs, s')) ∧
     files s' = files s ∧
     match r with
     | Return _ =>
         ∃ wr values,
           writer = Some wr ∧
           fmt' = TensorBoardOutputFormat dir (step + 1) writer ∧
           Forall2 (λ kv x, x.1 = kv.1 ∧ py_float kv.2 = Return x.2) kvs values ∧
           writers s' =
             alter (λ w, Flush (WriteEvent {| wall_time := time_time (clock s);
                                              summary := values; ev_step := step |} w))
                   wr (writers s)
     | Raise _ =>
         fmt' = TensorBoardOutputFormat dir step writer ∧ writers s' = writers s
     end) ∧
  (∃ s0,
     TensorBoard_init dir s =
       (Return (TensorBoardOutputFormat dir 1 (Some (length (writers s)))), s0) ∧
     writers s0 =
       (writers s ++ [{| ew_path := osp_join (osp_abspath dir) "events";
                         ew_pending := []; ew_flushed := []; ew_closed := false |}])%list).
Proof.
  split; [apply TensorBoard_writekvs_run|].
  unfold TensorBoard_init, bind, makedirs, new_EventsWriter, modify, ret. simpl.
  by eexists.
Qed.

(** X7. [close()] on a sink returns and closing twice is closing once.  On
    a [TensorBoardOutputFormat] with a writer it closes that writer, whose
    pending events are flushed, and forgets it: every later [writekvs] on
    the sink raises and writes no event.  On every other sink, and on a
    [TensorBoardOutputFormat] already closed, it changes nothing: the text
    streams of [HumanOutputFormat] and [JSONOutputFormat] are never
    closed. *)
Theorem close_is_idempotent_and_ends_event_writing (fmt : OutputFormat) (s : Sys) :
  ∃ fmt' s',
    close fmt s = (Return fmt', s') ∧
    close fmt' s' = (Return fmt', s') ∧
    files s' = files s ∧ kv_calls s' = kv_calls s ∧
    match fmt with
    | TensorBoardOutputFormat dir step (Some wr) =>
        fmt' = TensorBoardOutputFormat dir step None ∧
        writers s' = alter Close wr (writers s) ∧
        ∀ kvs s1, ∃ e s2,
          writekvs (fmt', kvs, s1) = (Raise e, (fmt', kvs, s2)) ∧
          writers s2 = writers s1 ∧ files s2 = files s1
    | _ => fmt' = fmt ∧ s' = s
    end.
Proof.
  destruct fmt as [|file|file|dir step [wr|]]; try by eexists _, _.
  eexists _, _. split; [reflexivity|]. split; [reflexivity|].
  split; [done|]. split; [done|]. split; [done|]. split; [done|].
  intros kvs s1.
  destruct (TensorBoard_writekvs_run dir step None kvs s1)
    as (r & fmt' & s2 & Hrun & Hf & Hres).
  destruct r as [[]|e].
  - by destruct Hres as (wr' & values & ? & _).
  - destruct Hres as [-> Hw]. by exists e, s2.
Qed.

(** *** Logger.close *)

Lemma close_all_spec (fmts : list OutputFormat) (s : Sys) :
  ∃ s', comprehension close fmts s = (Return (closed_sink <$> fmts), s') ∧
        files s' = files s ∧ kv_calls s' = kv_calls s ∧
        length (writers s') = length (writers s) ∧
        comprehension close (closed_sink <$> fmts) s' = (Return (closed_sink <$> fmts), s').
Proof.
  revert s. induction fmts as [|fmt fmts IH]; intros s.
  - by exists s.
  - cbn [comprehension fmap list_fmap]. unfold bind at 1.
    assert (Hone : ∃ s1, close fmt s = (Return (closed_sink fmt), s1) ∧
              files s1 = files s ∧ kv_calls s1 = kv_calls s ∧
              length (writers s1) = length (writers s) ∧
              ∀ s2, close (closed_sink fmt) s2 = (Return (closed_sink fmt), s2)).
    { destruct fmt as [|file|file|dir step [wr|]]; try by eexists.
      eexists. split; [reflexivity|]. simpl. by rewrite length_alter. }
    destruct Hone as (s1 & -> & Hf1 & Hc1 & Hw1 & Hagain).
    destruct (IH s1) as (s' & Hrun & Hf & Hc & Hw & Hidem).
    unfold bind at 1. rewrite Hrun. exists s'.
    split; [done|]. split; [congruence|]. split; [congruence|]. split; [congruence|].
    unfold bind at 1. rewrite Hagain. unfold bind at 1.
    change (list_fmap _ _ closed_sink fmts) with (closed_sink <$> fmts). by rewrite Hidem.
Qed.

(** X8. [Logger.close()] returns, closes every sink in place and changes
    nothing else: the buffer, the threshold, the directory and every text
    stream are as before, so a closed Logger still writes its messages and
    tables to the console and to its files, while its event sinks have lost
    their writers.  Closing twice is closing once. *)
Theorem Logger_close_closes_only_event_writers (L : Logger) (s : Sys) :
  ∃ L' s',
    Logger_close (L, s) = (Return tt, (L', s')) ∧
    L' = set_output_formats (closed_sink <$> output_formats L) L ∧
    files s' = files s ∧ kv_calls s' = kv_calls s ∧
    Logger_close (L', s') = (Return tt, (L', s')).
Proof.
  unfold Logger_close, bind, gets, zoom_snd, modify. simpl.
  destruct (close_all_spec (output_formats L) s) as (s' & Hrun & Hf & Hc & _ & Hidem).
  rewrite Hrun. simpl. eexists _, _. split; [reflexivity|]. split; [done|].
  split; [done|]. split; [done|]. simpl. by rewrite Hidem.
Qed.

(** *** The free functions and the two Loggers *)

Lemma put_current_id (w : World) : put_current (current_logger w) (sys w) w = w.
Proof. unfold put_current, current_logger. by destruct w as [s D [|L]]. Qed.

Lemma get_dir_spec (w : World) : get_dir w = (Return (dir (current_logger w)), w).
Proof. unfold get_dir, on_current, Logger_get_dir, gets. simpl. by rewrite put_current_id. Qed.

(** X9. After a [configure] that returned, [get_dir()] gives the directory
    the call resolved and changes nothing: the [dir] argument when there is
    one, else the value of OPENAI_LOGDIR when it is set, else a directory
    under the temporary directory named after the time.  Before any
    [configure] it gives None. *)
Theorem get_dir_gives_the_directory_configure_resolved
    (dir : option string) (format_strs : option (list string)) (w w' : World) :
  configure dir format_strs w = (Return tt, w') →
  get_dir w' =
    (Return (Some match dir with
                  | Some d => d
                  | None =>
                      match OPENAI_LOGDIR (sys w) with
                      | Some d => d
                      | None => osp_join gettempdir (strftime_now (clock (sys w)))
                      end
                  end), w') ∧
  ∀ env, get_dir (fresh_world env) = (Return None, fresh_world env).
Proof.
  intros Hrun. split; [|done]. rewrite get_dir_spec. f_equal.
  destruct (configure_spec dir format_strs w) as (r & w1 & Hrun' & _ & Hres).
  rewrite Hrun in Hrun'. injection Hrun' as <- <-.
  destruct (current_is_default w); [|by destruct Hres].
  destruct (forallb known_format _); [|by destruct Hres as (_ & f & _ & _ & ?)].
  destruct Hres as (_ & fmts & Hcur). unfold current_logger. rewrite Hcur. simpl.
  unfold resolved_dir. destruct dir as [d|]; [done|].
  by destruct (OPENAI_LOGDIR (sys w)).
Qed.

Lemma logkvs_keeps_default (d : dict pyval) (w : World) :
  current_is_default w = false →
  ∃ w', logkvs d w = (Return tt, w') ∧
        Logger_DEFAULT w' = Logger_DEFAULT w ∧ current_is_default w' = false.
Proof.
  intros Hcur. rewrite logkvs_spec. eexists. split; [reflexivity|].
  unfold put_current, current_is_default in *. by destruct (Logger_CURRENT w).
Qed.

(** X10. The default Logger and a configured Logger have separate buffers,
    and [reset] does not carry anything over: what was logged after a
    [configure] and not dumped is out of reach after [reset], and [getkvs]
    then shows the default Logger's buffer exactly as it was before the
    [configure].  [reset] closes nothing: the event writers are untouched. *)
Theorem reset_brings_back_the_default_buffer
    (dir : option string) (format_strs : option (list string))
    (logged : dict pyval) (w w1 w2 w3 : World) :
  current_is_default w = true →
  configure dir format_strs w = (Return tt, w1) →
  logkvs logged w1 = (Return tt, w2) →
  reset w2 = (Return tt, w3) →
  getkvs w3 = (Return (name2val (current_logger w)), w3) ∧
  current_is_default w3 = true ∧
  writers (sys w3) = writers (sys w2).
Proof.
  intros Hdef Hconf Hlog Hreset.
  destruct (configure_spec dir format_strs w) as (r & w1' & Hconf' & Hkeep & Hres).
  rewrite Hconf in Hconf'. injection Hconf' as <- <-. rewrite Hdef in Hres.
  destruct (forallb known_format _); [|by destruct Hres as (_ & f & _ & _ & ?)].
  destruct Hres as (_ & fmts & Hcur).
  destruct (logkvs_keeps_default logged w1) as (w2' & Hlog' & Hkeep2 & _).
  { unfold current_is_default. by rewrite Hcur. }
  rewrite Hlog in Hlog'. injection Hlog' as <-.
  unfold reset, bind, set_CURRENT, modify in Hreset. simpl in Hreset.
  unfold log, on_current in Hreset. simpl in Hreset.
  destruct (Logger_log_frame ["Reset logger"] INFO (Logger_DEFAULT w2) (sys w2))
    as (s' & Hrun & Hch & _).
  unfold current_logger in Hreset. simpl in Hreset. rewrite Hrun in Hreset.
  injection Hreset as <-. unfold getkvs, gets, current_logger, current_is_default. simpl.
  unfold current_is_default in Hdef. destruct (Logger_CURRENT w); [|done].
  rewrite Hkeep2, Hkeep. split; [done|]. split; [done|]. by destruct Hch.
Qed.

Lemma default_formats_sinks (d : string) (s : Sys) :
  ∃ s',
    comprehension (λ f, make_output_format f d) LOG_OUTPUT_FORMATS s =
      (Return [HumanOutputFormat sys_stdout; HumanOutputFormat (length (files s));
               JSONOutputFormat (S (length (files s)))], s') ∧
    files s' =
      (files s ++ [ {| f_name := osp_join d "log.txt"; f_pending := ""; f_flushed := "" |};
                    {| f_name := osp_join d "progress.json"; f_pending := "";
                       f_flushed := "" |} ])%list ∧
    writers s' = writers s ∧ kv_calls s' = kv_calls s.
Proof.
  unfold LOG_OUTPUT_FORMATS. cbn [comprehension].
  unfold make_output_format, makedirs, open_wt, bind, modify, ret. simpl.
  rewrite length_app, Nat.add_1_r. eexists. split; [reflexivity|].
  split; [|done]. simpl. by rewrite <- app_assoc.
Qed.

(** X11. A [configure] without format names, from the default state with
    the console stream in place, installs three sinks: the console, a new
    stream log.txt and a new stream progress.json, both under the resolved
    directory.  Its message 'Logging to <directory>' is written and flushed
    on the console and in log.txt; progress.json stays empty, and no stream
    that existed before, the console apart, is touched. *)
Theorem configure_announces_on_console_and_log_file
    (dir : option string) (w : World) (console : File) :
  current_is_default w = true →
  files (sys w) !! sys_stdout = Some console →
  ∃ w',
    let d := (resolved_dir dir (sys w)).1 in
    let n := length (files (sys w)) in
    let message := ["Logging to " ++ d] in
    configure dir None w = (Return tt, w') ∧
    output_formats (current_logger w') =
      [HumanOutputFormat sys_stdout; HumanOutputFormat n; JSONOutputFormat (S n)] ∧
    files (sys w') !! sys_stdout = Some (line_written message console) ∧
    files (sys w') !! n =
      Some (line_written message
              {| f_name := osp_join d "log.txt"; f_pending := ""; f_flushed := "" |}) ∧
    files (sys w') !! S n =
      Some {| f_name := osp_join d "progress.json"; f_pending := ""; f_flushed := "" |} ∧
    (∀ j, (0 < j < n)%nat → files (sys w') !! j = files (sys w) !! j).
Proof.
  intros Hdef Hconsole. rewrite configure_unfold, Hdef. cbn [default].
  destruct (resolved_dir dir (sys w)) as [d s1] eqn:Hres. cbn [fst snd].
  assert (Hfiles : files s1 = files (sys w)).
  { unfold resolved_dir in Hres. destruct dir; [by injection Hres as _ <-|].
    destruct (OPENAI_LOGDIR (sys w)); by injection Hres as _ <-. }
  destruct (default_formats_sinks d s1) as (s2 & -> & Hf2 & _ & _).
  rewrite Hfiles in Hf2. rewrite Hfiles.
  set (n := length (files (sys w))) in *.
  assert (Hn : (0 < n)%nat) by (by apply lookup_lt_Some in Hconsole).
  unfold log, on_current, current_logger. cbn [Logger_CURRENT sys].
  rewrite Logger_log_forwards by done.
  unfold _do_log, bind, gets, zoom_snd. cbn [fst snd output_formats Logger_init for_each writeseq].
  unfold bind. rewrite !Human_writeseq_alter. cbn [ret].
  eexists. cbn zeta. split; [reflexivity|]. split; [done|].
  cbn [sys put_current Logger_CURRENT files set_files]. rewrite Hf2.
  split; [|split; [|split]].
  - rewrite list_lookup_alter_ne by (unfold sys_stdout; lia).
    rewrite list_lookup_alter_eq, lookup_app_l by (unfold sys_stdout; lia).
    by rewrite Hconsole.
  - rewrite list_lookup_alter_eq, list_lookup_alter_ne by (unfold sys_stdout; lia).
    rewrite lookup_app_r by lia. by rewrite Nat.sub_diag.
  - rewrite !list_lookup_alter_ne by (unfold sys_stdout; lia).
    rewrite lookup_app_r by (unfold n; lia).
    by replace (S n - length (files (sys w)))%nat with 1%nat by (unfold n; lia).
  - intros j Hj. rewrite !list_lookup_alter_ne by (unfold sys_stdout; lia).
    apply lookup_app_l. unfold n in Hj. lia.
Qed.

(** *** logkvs *)

Lemma last_write_wf (k : string) (d : dict pyval) :
  dict_wf d → last_write k d = dict_get k d.
Proof.
  unfold dict_wf, dict_keys. induction d as [|[k1 v1] d IH]; intros Hwf; [done|].
  rewrite fmap_cons in Hwf. apply list.NoDup_cons in Hwf as [Hk1 Hwf].
  rewrite last_write_cons. simpl. destruct (decide (k = k1)) as [->|Hne].
  - rewrite last_write_absent; [by rewrite decide_True|].
    apply list.Forall_forall. intros kv Hin <-. apply Hk1.
    by apply (list_elem_of_fmap_2 fst) in Hin.
  - rewrite IH by done. rewrite decide_False by done. by destruct (dict_get k d).
Qed.

(** X12. [logkvs(d)] returns and is [logkv] on every entry of [d]: [getkvs]
    then shows, for each key of [d], the value [d] gives it, and for any
    other key what the buffer held before; nothing but the current Logger's
    buffer changes. *)
Theorem logkvs_stores_every_entry (d : dict pyval) (w : World) :
  dict_wf d →
  ∃ w' buffer,
    logkvs d w = (Return tt, w') ∧
    getkvs w' = (Return buffer, w') ∧
    (∀ k, dict_get k buffer =
          match dict_get k d with
          | Some v => Some v
          | None => dict_get k (name2val (current_logger w))
          end) ∧
    sys w' = sys w ∧
    level (current_logger w') = level (current_logger w) ∧
    output_formats (current_logger w') = output_formats (current_logger w) ∧
    current_is_default w' = current_is_default w.
Proof.
  intros Hwf. rewrite logkvs_spec. eexists _, _. split; [reflexivity|].
  split; [reflexivity|]. rewrite current_put_current. simpl.
  split; [|split; [|split; [done|split; [done|]]]].
  - intros k. by rewrite logkv_sequence_get, last_write_wf.
  - unfold put_current. by destruct (Logger_CURRENT w).
  - unfold put_current, current_is_default. by destruct (Logger_CURRENT w).
Qed.

(** *** The threshold DISABLED *)



(** *** Importing the module *)

(** X14. Importing the module with OPENAI_LOGDIR unset, or set to the empty
    string, leaves the default Logger current, and nothing has been written.
    With OPENAI_LOGDIR set to a non-empty path the import runs [configure]:
    it returns, and the current Logger is a new one whose directory is that
    path, with the three default sinks. *)
Theorem import_configures_when_OPENAI_LOGDIR_is_set (env : option string) :
  ∃ w,
    import_logger env = (Return tt, w) ∧
    match env with
    | Some (String c path) =>
        current_is_default w = false ∧
        dir (current_logger w) = Some (String c path) ∧
        output_formats (current_logger w) =
          [HumanOutputFormat sys_stdout; HumanOutputFormat 1; JSONOutputFormat 2] ∧
        level (current_logger w) = INFO ∧ name2val (current_logger w) = []
    | _ => w = fresh_world env
    end.
Proof.
  destruct env as [[|c path]|]; try by eexists.
  unfold import_logger. rewrite configure_unfold.
  cbn [current_is_default fresh_world Logger_CURRENT default resolved_dir sys fst snd].
  destruct (default_formats_sinks (String c path) (sys (fresh_world (Some (String c path)))))
    as (s2 & Hrun & _).
  cbn [sys fresh_world] in Hrun. rewrite Hrun.
  match goal with |- context [log ?a ?l ?w0] => destruct (log_spec a l w0) as [s3 ->] end.
  by eexists.
Qed.

(** *** The file of JSONOutputFormat *)

(** X15. Two [JSONOutputFormat.writekvs] calls on the same file, each on a
    mapping whose values with a dtype convert, leave two lines in it, the
    record of the first mapping and then the record of the second, each
    ended by a newline and flushed: a record is appended, it never replaces
    or merges with the one before it. *)
Theorem JSON_records_are_appended_one_per_call
    (file : nat) (kvs1 kvs2 : dict pyval) (s : Sys) (f : File) :
  dict_wf kvs1 → dict_wf kvs2 →
  forallb (λ kv, convertible kv.2) kvs1 = true →
  forallb (λ kv, convertible kv.2) kvs2 = true →
  files s !! file = Some f →
  ∃ text1 text2 s1 s2,
    json_dumps (json_coerced kvs1) = Return text1 ∧
    json_dumps (json_coerced kvs2) = Return text2 ∧
    JSON_writekvs file (kvs1, s) = (Return tt, (json_coerced kvs1, s1)) ∧
    JSON_writekvs file (kvs2, s1) = (Return tt, (json_coerced kvs2, s2)) ∧
    files s2 !! file =
      Some {| f_name := f_name f; f_pending := "";
              f_flushed := (f_flushed f ++ f_pending f ++ text1 ++ nl) ++ text2 ++ nl |}.
Proof.
  intros Hwf1 Hwf2 Hall1 Hall2 Hfile.
  destruct (JSON_writekvs_spec file kvs1 s Hwf1) as (r1 & k1 & s1 & Hrun1 & _ & _ & Hres1).
  rewrite Hall1 in Hres1. destruct Hres1 as (text1 & Hd1 & -> & -> & Hs1).
  destruct (JSON_writekvs_spec file kvs2 s1 Hwf2) as (r2 & k2 & s2 & Hrun2 & _ & _ & Hres2).
  rewrite Hall2 in Hres2. destruct Hres2 as (text2 & Hd2 & -> & -> & Hs2).
  exists text1, text2, s1, s2. split; [done|]. split; [done|]. split; [done|].
  split; [done|]. rewrite Hs2, Hs1. simpl.
  by rewrite !list_lookup_alter_eq, Hfile.
Qed.

(** X16. When some value with a dtype does not convert,
    [JSONOutputFormat.writekvs] raises before it writes: the store, and so
    the file, is exactly as before, and the mapping still has the same keys
    in the same order (some of its values may already be converted). *)
Theorem JSON_writekvs_writes_nothing_when_it_raises
    (file : nat) (kvs : dict pyval) (s : Sys) :
  dict_wf kvs →
  forallb (λ kv, convertible kv.2) kvs = false →
  ∃ e kvs',
    JSON_writekvs file (kvs, s) = (Raise e, (kvs', s)) ∧
    dict_keys kvs' = dict_keys kvs.
Proof.
  intros Hwf Hall.
  destruct (JSON_writekvs_spec file kvs s Hwf) as (r & kvs' & s' & Hrun & Hkeys & _ & Hres).
  rewrite Hall in Hres. destruct Hres as [[e ->] ->]. by exists e, kvs'.
Qed.

End properties.

(** ** The statements on the sample states *)

Lemma sample_kvs_wf : dict_wf sample_kvs.
Proof. unfold dict_wf. by apply (bool_decide_unpack _). Qed.

(** the claim C1 fails here.  With nothing logged the console sink raises
    at [max], [dumpkvs] raises with it and the JSON sink after it is never
    called.  With an array logged the console sink writes its table, the JSON
    sink raises, and the buffer is not cleared. *)
Lemma C1_counterexample :
  level empty_logger ≠ DISABLED ∧
  Logger_dumpkvs (empty_logger, sample_sys) =
    (Raise (ValueError "max() arg is an empty sequence"),
     (empty_logger, record_call (HumanOutputFormat sys_stdout) [] sample_sys)) ∧
  (∃ s',
     Logger_dumpkvs (array_logger_console_first, sample_sys) =
       (Raise float_list_error, (array_logger_console_first, s')) ∧
     kv_calls s' = [(HumanOutputFormat sys_stdout, array_kvs);
                    (JSONOutputFormat 1, array_kvs)] ∧
     name2val array_logger_console_first ≠ []).
Proof.
  split; [discriminate|]. split; [reflexivity|].
  eexists. split; [reflexivity|]. split; [reflexivity|discriminate].
Qed.

Lemma C1_witness :
  ∃ s',
    Logger_dumpkvs (sample_logger, sample_sys) =
      (Return tt,
       (dumped [JSONOutputFormat 1; HumanOutputFormat sys_stdout] sample_logger, s')) ∧
    f_flushed <$> files s' !! 1%nat = Some sample_record ∧
    f_flushed <$> files s' !! sys_stdout = Some sample_table ∧
    kv_calls s' = [ (JSONOutputFormat 1, sample_kvs);
                    (HumanOutputFormat sys_stdout, [("b", VInt 2); ("a", VFloat 3)]) ].
Proof.
  destruct (C1_dumpkvs_writes_every_sink_then_clears sample_logger sample_sys)
    as (_ & _ & Hdump & _).
  assert (Hfan : ∃ calls fmts' kvs' s',
            fan_out (output_formats sample_logger) (name2val sample_logger) sample_sys
                    calls (Return tt) fmts' kvs' s' ∧
            fmts' = [JSONOutputFormat 1; HumanOutputFormat sys_stdout] ∧
            f_flushed <$> files s' !! 1%nat = Some sample_record ∧
            f_flushed <$> files s' !! sys_stdout = Some sample_table).
  { eexists _, _, _, _. split.
    - eapply fan_out_next; [reflexivity|].
      eapply fan_out_next; [reflexivity|]. apply fan_out_done.
    - repeat split. }
  destruct Hfan as (calls & fmts' & kvs' & s' & Hfan & -> & Hjson & Hconsole).
  destruct (Hdump ltac:(discriminate) calls _ kvs' s' Hfan) as (Hrun & _ & Hhist).
  destruct (Hhist sample_kvs_wf) as [-> Hcalls].
  exists s'. split; [exact Hrun|]. split; [exact Hjson|]. split; [exact Hconsole|].
  exact Hcalls.
Defined.

(** the claim C2 fails here: the JSON sink raises on the array, [dumpkvs]
    raises with it, the sink after it is not called, and the buffer still
    holds its entry *)
Lemma C2_counterexample :
  Logger_dumpkvs (array_logger, sample_sys) =
    (Raise float_list_error,
     (array_logger, record_call (JSONOutputFormat 1) array_kvs sample_sys)) ∧
  name2val array_logger ≠ [].
Proof. split; [reflexivity|discriminate]. Qed.

Lemma C2_witness :
  Logger_dumpkvs (array_logger, sample_sys) =
    (Raise float_list_error,
     (interrupted [JSONOutputFormat 1; HumanOutputFormat sys_stdout] array_kvs array_logger,
      record_call (JSONOutputFormat 1) array_kvs sample_sys)) ∧
  kv_calls (record_call (JSONOutputFormat 1) array_kvs sample_sys) =
    [(JSONOutputFormat 1, array_kvs)] ∧
  dict_keys array_kvs = ["a"].
Proof.
  destruct (C2_raise_skips_later_sinks_and_keeps_buffer array_logger sample_sys)
    as [Hraise _].
  - unfold dict_wf. by apply (bool_decide_unpack _).
  - discriminate.
  - destruct (Hraise [] (JSONOutputFormat 1) [HumanOutputFormat sys_stdout] [] []
                array_kvs sample_sys float_list_error (JSONOutputFormat 1) array_kvs
                (record_call (JSONOutputFormat 1) array_kvs sample_sys)
                eq_refl (fan_out_done _ _) eq_refl)
      as (Hrun & _ & Hcalls & Hkeys).
    split; [exact Hrun|]. split; [exact Hcalls|]. symmetry. exact Hkeys.
Defined.

Lemma C3_witness :
  ∃ w1 w2 w3,
    configure None None (fresh_world None) = (Return tt, w1) ∧
    configure None None w1 = (Raise (AssertionError assertion_message), w1) ∧
    reset w1 = (Return tt, w2) ∧
    configure None None w2 = (Return tt, w3).
Proof.
  pose (w1 := (configure None None (fresh_world None)).2).
  assert (Hfirst : configure None None (fresh_world None) = (Return tt, w1))
    by reflexivity.
  destruct (C3_configure_asserts_default_and_reset_restores (fresh_world None))
    as (_ & Hsecond & _).
  destruct (C3_configure_asserts_default_and_reset_restores w1)
    as (_ & _ & w2 & Hreset & _ & _ & Hagain & _).
  destruct (Hagain None) as [w3 Hthird].
  exists w1, w2, w3. split; [exact Hfirst|].
  split; [exact (Hsecond None None w1 Hfirst None None)|].
  split; [exact Hreset|exact Hthird].
Defined.

(** the claim C4 fails here: the last value logged for a is np.int64(3),
    and the console sink, which comes after the JSON sink, is handed the
    float 3.0 *)
Lemma C4_counterexample :
  ∃ L' calls fmts' kvs' s',
    for_each (λ kv, Logger_logkv kv.1 kv.2) dtype_calls (new_logger, sample_sys)
      = (Return tt, (L', sample_sys)) ∧
    last_write "a" dtype_calls = Some int64_3 ∧
    fan_out (output_formats L') (name2val L') sample_sys calls (Return tt) fmts' kvs' s' ∧
    Logger_dumpkvs (L', sample_sys) = (Return tt, (dumped fmts' L', s')) ∧
    calls = [ (JSONOutputFormat 1, [("a", int64_3)]);
              (HumanOutputFormat sys_stdout, [("a", VFloat 3)]) ] ∧
    dict_get "a" [("a", VFloat 3)] ≠ Some int64_3.
Proof.
  eexists _, _, _, _, _. split; [reflexivity|]. split; [reflexivity|].
  split; [|split; [reflexivity|split; [reflexivity|discriminate]]].
  eapply fan_out_next; [reflexivity|].
  eapply fan_out_next; [reflexivity|]. apply fan_out_done.
Qed.

Lemma C4_witness :
  ∃ L',
    for_each (λ kv, Logger_logkv kv.1 kv.2) sample_calls (new_logger, sample_sys)
      = (Return tt, (L', sample_sys)) ∧
    dict_get "a" (name2val L') = Some (VInt 5) ∧
    dict_get "b" (name2val L') = dict_get "b" sample_calls ∧
    ∃ calls r fmts' kvs' s',
      fan_out (output_formats new_logger) (name2val L') sample_sys calls r fmts' kvs' s' ∧
      Logger_dumpkvs (L', sample_sys) =
        (r, (match r with
             | Return _ => dumped fmts' L'
             | Raise _ => interrupted fmts' kvs' L'
             end, s')) ∧
      calls !! 0%nat = Some (JSONOutputFormat 1, name2val L').
Proof.
  destruct (C4_last_logkv_per_key_reaches_the_dump new_logger sample_sys sample_calls)
    as (L' & Hrun & _ & _ & _ & Hget & Hdump).
  - unfold dict_wf. by apply (bool_decide_unpack _).
  - exists L'. split; [exact Hrun|].
    split; [by rewrite Hget|]. split; [by rewrite Hget|].
    destruct (Hdump ltac:(discriminate))
      as (calls & r & fmts' & kvs' & s' & Hfan & Hd & Hfirst & _).
    exists calls, r, fmts', kvs', s'. split; [exact Hfan|]. split; [exact Hd|].
    by apply (Hfirst _ _ eq_refl).
Defined.

Lemma C6_witness :
  (∃ s', make_output_format "csv" "/tmp/x" sample_sys =
         (Raise (ValueError "Unknown format specified: csv"), s')) ∧
  ∃ e w',
    configure None (Some ["json"; "csv"]) (fresh_world None) = (Raise e, w') ∧
    Logger_CURRENT w' = IsDefault ∧
    Logger_DEFAULT w' = Logger_DEFAULT (fresh_world None).
Proof.
  destruct C6_unknown_format_fails_and_installs_nothing as [Hfactory Hconfigure].
  split.
  - apply Hfactory. reflexivity.
  - destruct (Hconfigure None ["json"; "csv"] (fresh_world None))
      as (e & w' & Hrun & Hcur & Hdef & _).
    + exists "csv". split; [|reflexivity]. by apply (bool_decide_unpack _).
    + by exists e, w'.
Defined.

(** the claim C7 fails here: the keys were logged in the order b, a, and
    the line written lists b before a; the sorted order would list a first *)
Lemma C7_counterexample :
  ∃ s',
    JSON_writekvs 1 (kvs_b_a, sample_sys) = (Return tt, (kvs_b_a, s')) ∧
    f_flushed <$> files s' !! 1%nat = Some (record_b_a ++ nl) ∧
    json_dumps (sorted_items kvs_b_a) = Return record_a_b ∧
    record_b_a ≠ record_a_b.
Proof.
  eexists. split; [reflexivity|]. split; [reflexivity|].
  split; [reflexivity|discriminate].
Qed.

Lemma C7_witness :
  ∃ members s',
    JSON_writekvs 1 (sample_kvs, sample_sys) =
      (Return tt, ([("b", VInt 2); ("a", VFloat 3)], s')) ∧
    members !! 0%nat = Some (dquote ++ "b" ++ dquote ++ ": 2") ∧
    members !! 1%nat = Some (dquote ++ "a" ++ dquote ++ ": 3.0") ∧
    f_flushed <$> files s' !! 1%nat =
      Some (("{" ++ String.concat ", " members ++ "}") ++ nl).
Proof.
  destruct (C7_JSON_record_follows_the_mapping_order 1 sample_kvs sample_sys
              {| f_name := "/tmp/x/progress.json"; f_pending := ""; f_flushed := "" |})
    as (members & s' & Hrun & _ & Hnth & Hfile & _).
  - exact sample_kvs_wf.
  - reflexivity.
  - reflexivity.
  - exists members, s'. split; [exact Hrun|].
    destruct (Hnth 0%nat _ _ eq_refl) as (_ & x0 & Hx0 & Hm0).
    destruct (Hnth 1%nat _ _ eq_refl) as (_ & x1 & Hx1 & Hm1).
    injection Hx0 as <-. injection Hx1 as <-.
    split; [exact Hm0|]. split; [exact Hm1|]. by rewrite Hfile.
Defined.

Lemma C8_witness :
  ∃ w' buffer,
    (logkv "a" int64_3 ;;; logkvs [("b", VInt 1)]) (fresh_world None)
      = (Return tt, w') ∧
    getkvs w' = (Return buffer, w') ∧
    dict_get "a" buffer = Some int64_3.
Proof.
  apply (C8_getkvs_reads_back_what_logkv_wrote
           (fresh_world None) "a" int64_3 [("b", VInt 1)]).
  by apply (bool_decide_unpack _).
Defined.

Lemma C9_witness :
  ∃ kvs' s',
    JSON_writekvs 1 (sample_kvs, sample_sys) = (Return tt, (kvs', s')) ∧
    kvs' = [("b", VInt 2); ("a", VFloat 3)] ∧
    kvs' ≠ sample_kvs.
Proof.
  destruct (C9_JSON_writekvs_converts_the_callers_mapping 1 sample_kvs sample_sys
              sample_kvs_wf) as [Hsink _].
  pose (out := JSON_writekvs 1 (sample_kvs, sample_sys)).
  destruct (Hsink out.2.1 out.2.2 eq_refl) as (Hkvs & _ & _ & _ & Hchanged).
  exists out.2.1, out.2.2. split; [reflexivity|]. split; [exact Hkvs|].
  apply Hchanged. exists "a", (np_int64 3 : @ndarray small_extern).
  by apply (list_elem_of_lookup_2 _ 1%nat).
Defined.

Lemma C10_witness :
  Logger_log ["hi"] DEBUG (default_logger, sample_sys) =
    (Return tt, (default_logger, sample_sys)) ∧
  ∃ s',
    Logger_log ["hi"] INFO (default_logger, sample_sys) =
      (Return tt, (default_logger, s')) ∧
    f_flushed <$> files s' !! sys_stdout = Some ("hi" ++ nl).
Proof.
  destruct C10_new_logger_is_at_INFO_with_empty_buffer as (Hinit & _ & _ & Hlog).
  destruct (Hlog (default_logger) sample_sys ["hi"])
    as (Hdebug & Hinfo & _).
  - apply (Hinit None [HumanOutputFormat sys_stdout]).
  - split; [exact Hdebug|]. eexists. rewrite Hinfo. split; reflexivity.
Defined.

Lemma X1_witness :
  _truncate long_key = "a_very_long_key_name..." ∧ _truncate "alpha" = "alpha".
Proof.
  destruct (truncate_at_most_23_characters long_key) as (_ & _ & Hlong & _).
  destruct (truncate_at_most_23_characters "alpha") as (_ & Hshort & _).
  split.
  - destruct Hlong as [-> _]; [by apply (bool_decide_unpack _)|reflexivity].
  - apply Hshort. by apply (bool_decide_unpack _).
Defined.

Lemma X2_witness :
  ∃ keywidth valwidth rows,
    let dashes := str_mul "-" (keywidth + valwidth + 7) in
    Human_writekvs sys_stdout table_kvs sample_sys =
      (Return tt,
       set_files (alter File_flush sys_stdout)
         (set_files
            (alter (File_write (String.concat nl ([dashes] ++ rows ++ [dashes])%list ++ nl))
                   sys_stdout) sample_sys)) ∧
    Forall (λ line, String.length line = (keywidth + valwidth + 7)%nat)
           ([dashes] ++ rows ++ [dashes])%list ∧
    (keywidth ≤ 23)%nat ∧ (valwidth ≤ 23)%nat ∧
    (1 ≤ length rows ≤ length table_kvs)%nat.
Proof. apply (Human_table_lines_have_one_width sys_stdout table_kvs sample_sys). discriminate. Defined.


Lemma X4_witness :
  ∃ s',
    writeseq (HumanOutputFormat sys_stdout) ["Reset "; "logger"] sample_sys = (Return tt, s') ∧
    files s' !! sys_stdout =
      Some {| f_name := "<stdout>"; f_pending := ""; f_flushed := "Reset logger" ++ nl |}.
Proof.
  destruct (Human_writeseq_appends_one_flushed_line sys_stdout ["Reset "; "logger"]
              sample_sys console_stream eq_refl) as (s' & Hrun & Hfile & _).
  exists s'. split; [exact Hrun|exact Hfile].
Defined.

Lemma X5_witness :
  Logger_log ["shouldn't appear"] DEBUG (default_logger, sample_sys) =
    (Return tt, (default_logger, sample_sys)).
Proof.
  destruct (log_changes_only_the_streams_of_Human_sinks ["shouldn't appear"] DEBUG
              default_logger sample_sys) as (s' & Hrun & _ & _ & Hquiet).
  rewrite Hrun. by rewrite Hquiet.
Defined.

Lemma X9_witness : get_dir world_env = (Return (Some "/logs"), world_env).
Proof.
  by destruct (get_dir_gives_the_directory_configure_resolved None None
                 (fresh_world (Some "/logs")) world_env eq_refl) as [Hdir _].
Defined.

Lemma X10_witness :
  getkvs world_reset = (Return [("pre", VInt 1)], world_reset) ∧
  getkvs world_busy = (Return [("x", VInt 2)], world_busy).
Proof.
  split; [|reflexivity].
  by destruct (reset_brings_back_the_default_buffer None None [("x", VInt 2)]
                 world_logged world_configured world_busy world_reset
                 eq_refl eq_refl eq_refl eq_refl) as [Hget _].
Defined.

Lemma X11_witness :
  ∃ w',
    configure None None (fresh_world None) = (Return tt, w') ∧
    f_flushed <$> files (sys w') !! sys_stdout = Some ("Logging to /tmp/openai-0" ++ nl) ∧
    f_flushed <$> files (sys w') !! 1%nat = Some ("Logging to /tmp/openai-0" ++ nl) ∧
    f_flushed <$> files (sys w') !! 2%nat = Some "".
Proof.
  destruct (configure_announces_on_console_and_log_file None (fresh_world None)
              console_stream eq_refl eq_refl)
    as (w' & Hrun & _ & Hconsole & Hlog & Hjson & _).
  exists w'. split; [exact Hrun|].
  cbn in Hconsole, Hlog, Hjson. by rewrite Hconsole, Hlog, Hjson.
Defined.

Lemma X12_witness :
  ∃ w' buffer,
    logkvs sample_kvs (fresh_world None) = (Return tt, w') ∧
    getkvs w' = (Return buffer, w') ∧
    dict_get "a" buffer = Some int64_3 ∧ dict_get "b" buffer = Some (VInt 2).
Proof.
  destruct (logkvs_stores_every_entry sample_kvs (fresh_world None) sample_kvs_wf)
    as (w' & buffer & Hrun & Hget & Hall & _).
  exists w', buffer. split; [exact Hrun|]. split; [exact Hget|].
  by rewrite !Hall.
Defined.

Lemma X15_witness :
  ∃ s1 s2,
    JSON_writekvs 1 (kvs_b_a, sample_sys) = (Return tt, (kvs_b_a, s1)) ∧
    JSON_writekvs 1 (sample_kvs, s1) = (Return tt, (json_coerced sample_kvs, s2)) ∧
    f_flushed <$> files s2 !! 1%nat =
      Some ((record_b_a ++ nl) ++
            ("{" ++ dquote ++ "b" ++ dquote ++ ": 2, " ++ dquote ++ "a" ++ dquote ++ ": 3.0}")
            ++ nl).
Proof.
  destruct (JSON_records_are_appended_one_per_call 1 kvs_b_a sample_kvs sample_sys
              {| f_name := "/tmp/x/progress.json"; f_pending := ""; f_flushed := "" |})
    as (text1 & text2 & s1 & s2 & Hd1 & Hd2 & Hrun1 & Hrun2 & Hfile).
  - unfold dict_wf. by apply (bool_decide_unpack _).
  - exact sample_kvs_wf.
  - reflexivity.
  - reflexivity.
  - reflexivity.
  - injection Hd1 as <-. injection Hd2 as <-.
    exists s1, s2. split; [exact Hrun1|]. split; [exact Hrun2|]. by rewrite Hfile.
Defined.

Lemma X16_witness :
  ∃ e kvs',
    JSON_writekvs 1 (array_kvs, sample_sys) = (Raise e, (kvs', sample_sys)) ∧
    dict_keys kvs' = ["a"].
Proof.
  apply (JSON_writekvs_writes_nothing_when_it_raises 1 array_kvs sample_sys).
  - unfold dict_wf. by apply (bool_decide_unpack _).
  - reflexivity.
Defined.
